(** * The Acast/Patreon feed merger ([app.py]): model and properties

    [app.py] fetches two podcast feeds with [feedparser], builds one
    merged feed with [feedgen] and serves it through a memoising
    [cachetools.TTLCache].  This file embeds that program:

    - Python values, exceptions and the few built-in operations the
      program uses ([d[k]], [d.get(k, default)], iteration, truthiness,
      [list.sort(key=...)]);
    - the [feedgen] objects, as the record of what their setters were
      called with;
    - [_set_feed_data], [_set_feed_entry_data], [generate_merged_feed]
      with its cache decorator, and the two route handlers;

    and then proves the properties of the merge, the cache and the error
    paths. *)

From stdpp Require Import base gmap list strings.
From Stdlib Require Import ZArith QArith Lqa Lia Sorted Permutation.
From coqutil Require Import Datatypes.RecordSetters.
Import TriangleBracketNotations.
Close Scope Q_scope.

#[local] Set Warnings "-register-all".

(** ** Python values *)

(** The objects that reach the program: what [feedparser] stores in a
    parsed feed ([None], booleans, integers, strings, [time.struct_time]
    tuples, lists and [FeedParserDict]s), and the opaque values the
    program passes on untouched. *)
Inductive value :=
| VNone
| VBool (b : bool)
| VInt (n : Z)
| VStr (s : string)
| VTime (t : list Z)
| VList (l : list value)
| VDict (d : gmap string value).

Inductive exn :=
| KeyError (key : string)
| TypeError
| AttributeError (name : string)
| HTTPException (status_code : value) (detail : string).

(** A computation either returns or raises. *)
Inductive result (A : Type) :=
| Ok (a : A)
| Raise (e : exn).
Arguments Ok {A} a.
Arguments Raise {A} e.

#[global] Instance result_ret : MRet result := fun A a => Ok a.
#[global] Instance result_bind : MBind result := fun A B f m =>
  match m with
  | Ok a => f a
  | Raise e => Raise e
  end.

Definition is_ok {A} (r : result A) : bool :=
  match r with Ok _ => true | Raise _ => false end.

(** [for x in xs: acc = f(acc, x)], stopping at the first exception. *)
Fixpoint foldlM {A B} (f : B -> A -> result B) (acc : B) (xs : list A) : result B :=
  match xs with
  | [] => Ok acc
  | x :: xs' => acc' ← f acc x; foldlM f acc' xs'
  end.

Fixpoint mapM {A B} (f : A -> result B) (xs : list A) : result (list B) :=
  match xs with
  | [] => Ok []
  | x :: xs' => y ← f x; ys ← mapM f xs'; Ok (y :: ys)
  end.

(** ** Built-in operations *)

(** [o[k]]: [KeyError] on a dict without the key, [TypeError] on anything
    that cannot be subscripted by a string. *)
Definition py_getitem (o : value) (k : string) : result value :=
  match o with
  | VDict d => match d !! k with Some v => Ok v | None => Raise (KeyError k) end
  | _ => Raise TypeError
  end.

(** [o.get(k, default)]; only dicts have the method. *)
Definition py_get (o : value) (k : string) (default : value) : result value :=
  match o with
  | VDict d => Ok (match d !! k with Some v => v | None => default end)
  | _ => Raise (AttributeError "get")
  end.

(** [o.name] on a [FeedParserDict]: the key of that name, [AttributeError]
    when it is missing. *)
Definition py_getattr (o : value) (name : string) : result value :=
  match o with
  | VDict d => match d !! name with Some v => Ok v | None => Raise (AttributeError name) end
  | _ => Raise (AttributeError name)
  end.

(** The items [for x in o] visits.  A string yields its characters, a
    tuple its items, a dict its keys. *)
Definition py_iter (o : value) : result (list value) :=
  match o with
  | VList l => Ok l
  | VTime t => Ok (VInt <$> t)
  | VStr s => Ok ((fun c => VStr (String c EmptyString)) <$> String.list_ascii_of_string s)
  | VDict d => Ok (VStr <$> (map_to_list d).*1)
  | _ => Raise TypeError
  end.

(** [bool(o)]. *)
Definition py_truthy (o : value) : bool :=
  match o with
  | VNone => false
  | VBool b => b
  | VInt n => negb (n =? 0)%Z
  | VStr s => negb (String.eqb s "")
  | VTime t => negb (bool_decide (t = []))
  | VList l => match l with [] => false | _ => true end
  | VDict d => negb (bool_decide (d = ∅))
  end.

(** [o == s] for a string literal [s]: only a string equals a string. *)
Definition py_eq_str (o : value) (s : string) : bool :=
  match o with
  | VStr s' => String.eqb s' s
  | _ => false
  end.

(** [o >= n] for an integer literal [n]; booleans are integers. *)
Definition py_ge_int (o : value) (n : Z) : result bool :=
  match o with
  | VInt z => Ok (n <=? z)%Z
  | VBool b => Ok (n <=? Z.b2z b)%Z
  | _ => Raise TypeError
  end.

(** [a + b] followed by a call of the result's [sort] method: two lists
    concatenate; strings, tuples and numbers add but have no [sort]; any
    other pair cannot be added. *)
Definition py_add_list (a b : value) : result (list value) :=
  match a, b with
  | VList l1, VList l2 => Ok (l1 ++ l2)
  | VStr _, VStr _ | VTime _, VTime _ => Raise (AttributeError "sort")
  | (VInt _ | VBool _), (VInt _ | VBool _) => Raise (AttributeError "sort")
  | _, _ => Raise TypeError
  end.

(** Tuple comparison [a < b] on tuples of integers: the first differing
    position decides, a proper prefix is smaller. *)
Fixpoint tuple_lt (a b : list Z) : bool :=
  match a, b with
  | _, [] => false
  | [], _ :: _ => true
  | x :: a', y :: b' => if (x =? y)%Z then tuple_lt a' b' else (x <? y)%Z
  end.

(** [a < b] between sort keys.  [feedparser] stores a [time.struct_time]
    or [None] under [published_parsed]; two [struct_time]s compare as
    tuples and [None] is not ordered.  Keys of any other type are not
    part of a parsed feed and are rejected like [None]. *)
Definition py_lt (a b : value) : result bool :=
  match a, b with
  | VTime ta, VTime tb => Ok (tuple_lt ta tb)
  | _, _ => Raise TypeError
  end.

(** *** [list.sort(key=...)]

    The keys of all items are computed first, in list order; the items are
    then ordered by [<] on the keys, and a comparison that raises makes
    the sort raise.  The sort is stable, which fixes its result: each
    item, taken from the right, is put in front of the first item whose
    key is not smaller than its own.  With two or more items every key is
    compared at least once. *)
Fixpoint sort_insert (x : value * value) (l : list (value * value))
  : result (list (value * value)) :=
  match l with
  | [] => Ok [x]
  | y :: l' =>
      b ← py_lt y.1 x.1;
      if b : bool then l'' ← sort_insert x l'; Ok (y :: l'') else Ok (x :: y :: l')
  end.

Fixpoint sort_keyed (l : list (value * value)) : result (list (value * value)) :=
  match l with
  | [] => Ok []
  | x :: l' => s ← sort_keyed l'; sort_insert x s
  end.

Definition list_sort (key : value -> result value) (l : list value) : result (list value) :=
  keys ← mapM key l;
  sorted ← sort_keyed (zip keys l);
  Ok (sorted.*2).

(** [enumerate(l, start)]. *)
Fixpoint enumerate {A} (start : Z) (l : list A) : list (Z * A) :=
  match l with
  | [] => []
  | x :: l' => (start, x) :: enumerate (start + 1) l'
  end.

(** ** The [feedgen] objects

    A [FeedGenerator] and its [FeedEntry]s are modelled by what their
    setters were called with: a field holds the argument of the last call
    of its setter, [None] before any call ([feedgen] reads a [None]
    argument as "leave unset"); the setters taking keyword arguments
    store the keyword dictionary, [link] and [category] adding it to the
    list they keep.  What [feedgen] then does with these values (its
    checks, its XML output) is not part of [app.py] and is not modelled. *)

(** [merged_feed.podcast], the channel part of the podcast extension. *)
Record PodcastExtension := {
  pc_itunes_explicit : value;
  pc_itunes_type : value;
  pc_itunes_author : value;
  pc_itunes_image : value;
  pc_itunes_subtitle : value;
  pc_itunes_summary : value;
  pc_itunes_owner : gmap string value;
}.

(** [fe.podcast], the entry part of the podcast extension. *)
Record PodcastEntryExtension := {
  pe_itunes_season : value;
  pe_itunes_episode : value;
  pe_itunes_explicit : value;
  pe_itunes_duration : value;
  pe_itunes_episode_type : value;
  pe_itunes_title : value;
}.

Record FeedEntry := {
  fe_title : value;
  fe_link : list (gmap string value);
  fe_summary : value;
  fe_summary_type : value;
  fe_guid : value;
  fe_guid_permalink : value;
  fe_published : value;
  fe_podcast : option PodcastEntryExtension;
}.

Record FeedGenerator := {
  fg_title : value;
  fg_description : value;
  fg_link : list (gmap string value);
  fg_language : value;
  fg_rights : value;
  fg_ttl : value;
  fg_generator : value;
  fg_author : list (gmap string value);
  fg_managingEditor : value;
  fg_image : gmap string value;
  fg_category : list (gmap string value);
  fg_lastBuildDate : value;
  fg_podcast : option PodcastExtension;
  fg_entry : list FeedEntry;
}.

(** [FeedGenerator()]. *)
Definition FeedGenerator_new : FeedGenerator := {|
  fg_title := VNone; fg_description := VNone; fg_link := [];
  fg_language := VNone; fg_rights := VNone; fg_ttl := VNone;
  fg_generator := VNone; fg_author := []; fg_managingEditor := VNone;
  fg_image := ∅; fg_category := []; fg_lastBuildDate := VNone;
  fg_podcast := None; fg_entry := [];
|}.

Definition PodcastExtension_new : PodcastExtension := {|
  pc_itunes_explicit := VNone; pc_itunes_type := VNone;
  pc_itunes_author := VNone; pc_itunes_image := VNone;
  pc_itunes_subtitle := VNone; pc_itunes_summary := VNone;
  pc_itunes_owner := ∅;
|}.

Definition PodcastEntryExtension_new : PodcastEntryExtension := {|
  pe_itunes_season := VNone; pe_itunes_episode := VNone;
  pe_itunes_explicit := VNone; pe_itunes_duration := VNone;
  pe_itunes_episode_type := VNone; pe_itunes_title := VNone;
|}.

(** [merged_feed.load_extension('podcast')] on a generator that has not
    loaded it. *)
Definition load_extension_podcast (fg : FeedGenerator) : FeedGenerator :=
  fg <| fg_podcast := Some PodcastExtension_new |>.

(** The entry [merged_feed.add_entry(order='append')] creates: empty, with
    the extensions of the feed. *)
Definition FeedEntry_new (fg : FeedGenerator) : FeedEntry := {|
  fe_title := VNone; fe_link := []; fe_summary := VNone;
  fe_summary_type := VNone; fe_guid := VNone; fe_guid_permalink := VNone;
  fe_published := VNone;
  fe_podcast := match fg_podcast fg with
                | Some _ => Some PodcastEntryExtension_new
                | None => None
                end;
|}.

(** [merged_feed.podcast] and [fe.podcast]: present once the extension is
    loaded. *)
Definition podcast (fg : FeedGenerator) : result PodcastExtension :=
  match fg_podcast fg with
  | Some p => Ok p
  | None => Raise (AttributeError "podcast")
  end.

Definition entry_podcast (fe : FeedEntry) : result PodcastEntryExtension :=
  match fe_podcast fe with
  | Some p => Ok p
  | None => Raise (AttributeError "podcast")
  end.

(** ** [app.py] *)

Definition __ACAST_URL : string :=
  "https://feeds.acast.com/public/shows/erdbeerkaesepodcast".

(** [__PATREON_URL.format(patreon_auth_token=...)]. *)
Definition __PATREON_URL (patreon_auth_token : string) : string :=
  "https://www.patreon.com/rss/erdbeerkaese?auth=" +:+ patreon_auth_token
    +:+ "&show=875519".

Definition __CACHE_TTL__ : Z := 60.
Definition __HTTP_ERROR__ : Z := 400.

(** The generator expression of [_set_feed_data]: the first link whose
    [rel] is ['self'], [None] when no link has it.  Links after the first
    match are not looked at. *)
Fixpoint first_self_link (links : list value) : result value :=
  match links with
  | [] => Ok VNone
  | link :: links' =>
      rel ← py_get link "rel" VNone;
      if py_eq_str rel "self" then Ok link else first_self_link links'
  end.

(** One turn of the loop over the public feed's links. *)
Definition add_feed_link (merged_feed : FeedGenerator) (link : value)
  : result FeedGenerator :=
  rel ← py_get link "rel" VNone;
  href ← py_get link "href" VNone;
  type ← py_get link "type" VNone;
  length ← py_get link "length" VNone;
  title ← py_get link "title" (VStr "Acast Feed");
  Ok (merged_feed <| fg_link ::= (fun links => links ++
        [ {[ "rel" := rel; "href" := href; "type" := type;
             "length" := length; "title" := title ]} ]) |>).

(** One turn of the loop over the public feed's tags. *)
Definition add_feed_category (merged_feed : FeedGenerator) (tag : value)
  : result FeedGenerator :=
  term ← py_get tag "term" VNone;
  scheme ← py_get tag "scheme" VNone;
  label ← py_get tag "label" VNone;
  Ok (merged_feed <| fg_category ::= (fun cats => cats ++
        [ {[ "term" := term; "scheme" := scheme; "label" := label ]} ]) |>).

(** [_set_feed_data(merged_feed, acast_data, patreon_data)].  [now] is what
    [datetime.now(UTC)] returns when the function reaches its last line. *)
Definition _set_feed_data (now : value) (merged_feed : FeedGenerator)
    (acast_data patreon_data : value) : result FeedGenerator :=
  title ← py_getitem acast_data "title";
  let merged_feed := merged_feed <| fg_title := title |> in
  summary ← py_getitem acast_data "summary";
  let merged_feed := merged_feed <| fg_description := summary |> in

  links ← py_get acast_data "links" (VList []);
  links ← py_iter links;
  merged_feed ← foldlM add_feed_link merged_feed links;
  patreon_links ← py_getitem patreon_data "links";
  patreon_links ← py_iter patreon_links;
  patreon_link ← first_self_link patreon_links;
  merged_feed ←
    (if py_truthy patreon_link then
       href ← py_getitem patreon_link "href";
       Ok (merged_feed <| fg_link ::= (fun links => links ++
             [ {[ "rel" := VStr "related"; "href" := href;
                  "type" := VStr "application/rss+xml";
                  "title" := VStr "Patreon Feed" ]} ]) |>)
     else Ok merged_feed);

  language ← py_getitem acast_data "language";
  let merged_feed := merged_feed <| fg_language := language |> in
  rights ← py_getitem acast_data "rights";
  let merged_feed := merged_feed <| fg_rights := rights |> in
  ttl ← py_get acast_data "ttl" (VInt __CACHE_TTL__);
  let merged_feed := merged_feed <| fg_ttl := ttl |> in
  let merged_feed := merged_feed <| fg_generator := VStr "Acast and Patreon" |> in

  author_detail ← py_getitem acast_data "author_detail";
  name ← py_get author_detail "name" VNone;
  email ← py_get author_detail "email" VNone;
  let merged_feed :=
    merged_feed <| fg_author := [ {[ "name" := name; "email" := email ]} ] |> in
  email ← py_get author_detail "email" VNone;
  let merged_feed := merged_feed <| fg_managingEditor := email |> in

  image ← py_getitem acast_data "image";
  url ← py_get image "href" VNone;
  title ← py_get image "title" VNone;
  link ← py_get image "link" VNone;
  let merged_feed :=
    merged_feed <| fg_image := {[ "url" := url; "title" := title; "link" := link ]} |> in

  tags ← py_get acast_data "tags" (VList []);
  tags ← py_iter tags;
  merged_feed ← foldlM add_feed_category merged_feed tags;

  p ← podcast merged_feed;
  explicit ← py_getitem acast_data "itunes_explicit";
  let p := p <| pc_itunes_explicit := explicit |> in
  itype ← py_getitem acast_data "itunes_type";
  let p := p <| pc_itunes_type := itype |> in

  name ← py_get author_detail "name" VNone;
  let p := p <| pc_itunes_author := name |> in
  href ← py_get image "href" VNone;
  let p := p <| pc_itunes_image := href |> in
  subtitle ← py_getitem patreon_data "subtitle";
  let p := p <| pc_itunes_subtitle := subtitle |> in
  summary ← py_getitem acast_data "summary";
  let p := p <| pc_itunes_summary := summary |> in
  name ← py_get author_detail "name" VNone;
  email ← py_get author_detail "email" VNone;
  let p := p <| pc_itunes_owner := {[ "name" := name; "email" := email ]} |> in
  let merged_feed := merged_feed <| fg_podcast := Some p |> in

  Ok (merged_feed <| fg_lastBuildDate := now |>).

(** One turn of the loop over an entry's links. *)
Definition add_entry_link (fe : FeedEntry) (link : value) : result FeedEntry :=
  rel ← py_get link "rel" VNone;
  href ← py_get link "href" VNone;
  type ← py_get link "type" VNone;
  length ← py_get link "length" VNone;
  Ok (fe <| fe_link ::= (fun links => links ++
        [ {[ "rel" := rel; "href" := href; "type" := type; "length" := length ]} ]) |>).

(** [_set_feed_entry_data(fe, entry, number)]. *)
Definition _set_feed_entry_data (fe : FeedEntry) (entry : value) (number : Z)
  : result FeedEntry :=
  title ← py_getitem entry "title";
  let fe := fe <| fe_title := title |> in

  links ← py_get entry "links" VNone;
  links ← py_iter links;
  fe ← foldlM add_entry_link fe links;

  summary_detail ← py_getitem entry "summary_detail";
  summary ← py_getitem summary_detail "value";
  type ← py_getitem summary_detail "type";
  let fe := fe <| fe_summary := summary |> <| fe_summary_type := type |> in

  id ← py_getitem entry "id";
  guidislink ← py_getitem entry "guidislink";
  let fe := fe <| fe_guid := id |> <| fe_guid_permalink := guidislink |> in
  published ← py_getitem entry "published";
  let fe := fe <| fe_published := published |> in

  p ← entry_podcast fe;
  season ← py_get entry "itunes_season" (VInt 1);
  let p := p <| pe_itunes_season := season |> in
  let p := p <| pe_itunes_episode := VInt number |> in
  explicit ← py_get entry "itunes_explicit" VNone;
  let p := p <| pe_itunes_explicit := explicit |> in
  duration ← py_get entry "itunes_duration" VNone;
  let p := p <| pe_itunes_duration := duration |> in
  episode_type ← py_get entry "itunes_episodetype" (VStr "full");
  let p := p <| pe_itunes_episode_type := episode_type |> in
  itunes_title ← py_get entry "itunes_title" VNone;
  let p := p <| pe_itunes_title := itunes_title |> in
  Ok (fe <| fe_podcast := Some p |>).

(** *** The process state and the requests' surroundings *)

(** One item of the [TTLCache]: the credential it is stored under, the
    clock reading at which it expires, and the feed. *)
Record CacheItem := {
  ci_key : string;
  ci_expires : Q;
  ci_value : FeedGenerator;
}.

(** What the process keeps between requests, and what it does to the
    outside: the cache, least recently used item first, and the URLs
    passed to [feedparser.parse] so far, oldest first. *)
Record World := {
  cache : list CacheItem;
  fetched : list string;
}.

(** What a request finds outside the process: the document
    [feedparser.parse] returns for a URL, and the wall-clock time. *)
Record Upstream := {
  parse : string -> gmap string value;
  utcnow : value;
}.

(** Code that may raise and that changes the world. *)
Definition M (A : Type) : Type := World -> result A * World.

#[global] Instance M_ret : MRet M := fun A a w => (Ok a, w).
#[global] Instance M_bind : MBind M := fun A B f m w =>
  match m w with
  | (Ok a, w') => f a w'
  | (Raise e, w') => (Raise e, w')
  end.

Definition lift {A} (r : result A) : M A := fun w => (r, w).
Definition raise {A} (e : exn) : M A := fun w => (Raise e, w).

(** [feedparser.parse(url)]. *)
Definition feedparser_parse (up : Upstream) (url : string) : M value :=
  fun w => (Ok (VDict (parse up url)), w <| fetched ::= (fun log => log ++ [url]) |>).

(** *** [cachetools.TTLCache(maxsize=1024, ttl=__CACHE_TTL__)]

    The clock is [time.monotonic], so items expire in the order they were
    stored, and the items [expire] unlinks from the front of that order
    are all the expired ones. *)

Definition maxsize : nat := 1024.
Definition ttl : Q := inject_Z __CACHE_TTL__.

(** [time < item.expires]. *)
Definition live (time : Q) (it : CacheItem) : bool :=
  negb (Qle_bool (ci_expires it) time).

Definition has_key (k : string) (it : CacheItem) : bool := String.eqb (ci_key it) k.

Definition expire (time : Q) (c : list CacheItem) : list CacheItem :=
  List.filter (live time) c.

(** [cache[k]]: [Some] the value, [None] for [KeyError].  Looking an item
    up makes it the most recently used, expired or not. *)
Definition cache_getitem (time : Q) (k : string) (c : list CacheItem)
  : option FeedGenerator * list CacheItem :=
  match List.find (has_key k) c with
  | None => (None, c)
  | Some it =>
      (if live time it then Some (ci_value it) else None,
       List.filter (fun it' => negb (has_key k it')) c ++ [it])
  end.

(** [cache[k] = v]: expired items go; if the key is new and the cache is
    full, the least recently used items go; the item is stored as the most
    recently used, expiring [ttl] from now. *)
Definition cache_setitem (time : Q) (k : string) (v : FeedGenerator)
    (c : list CacheItem) : list CacheItem :=
  let c := expire time c in
  let c := if existsb (has_key k) c then c
           else drop (length c + 1 - maxsize) c in
  List.filter (fun it' => negb (has_key k it')) c
    ++ [ {| ci_key := k; ci_expires := (time + ttl)%Q; ci_value := v |} ].

(** *** [generate_merged_feed] *)

(** One turn of the loop over the sorted entries: [add_entry] puts a new
    entry at the end of the feed and [_set_feed_entry_data] fills it in
    place.  When the filling raises the feed is dropped with it, so the
    entry is put here once it is filled. *)
Definition add_merged_entry (merged_feed : FeedGenerator) (ie : Z * value)
  : result FeedGenerator :=
  let fe := FeedEntry_new merged_feed in
  fe ← _set_feed_entry_data fe ie.2 ie.1;
  Ok (merged_feed <| fg_entry ::= (fun entries => entries ++ [fe]) |>).

(** Lines 130-143 of [generate_merged_feed]: what it does with the two
    parsed documents once both are fetched. *)
Definition merge_parsed (now : value) (acast_feed patreon_feed : value)
  : result FeedGenerator :=
  let merged_feed := FeedGenerator_new in
  let merged_feed := load_extension_podcast merged_feed in

  acast_data ← py_getitem acast_feed "feed";
  patreon_data ← py_getitem patreon_feed "feed";
  merged_feed ← _set_feed_data now merged_feed acast_data patreon_data;

  acast_entries ← py_get acast_feed "entries" (VList []);
  patreon_entries ← py_get patreon_feed "entries" (VList []);
  raw_entries ← py_add_list acast_entries patreon_entries;
  raw_entries ← list_sort (fun x => py_getitem x "published_parsed") raw_entries;

  foldlM add_merged_entry merged_feed (enumerate 1 raw_entries).

(** The function under the decorator
    ([generate_merged_feed.__wrapped__]). *)
Definition generate_merged_feed_wrapped (up : Upstream) (patreon_auth_token : string)
  : M FeedGenerator :=
  acast_feed ← feedparser_parse up __ACAST_URL;
  status ← lift (py_getattr acast_feed "status");
  failed ← lift (py_ge_int status __HTTP_ERROR__);
  if failed : bool then
    raise (HTTPException status "Error fetching Acast feed")
  else
  patreon_feed ← feedparser_parse up (__PATREON_URL patreon_auth_token);
  status ← lift (py_getattr patreon_feed "status");
  failed ← lift (py_ge_int status __HTTP_ERROR__);
  if failed : bool then
    raise (HTTPException status "Error fetching Patreon feed. Auth token correct?")
  else
  lift (merge_parsed (utcnow up) acast_feed patreon_feed).

(** [generate_merged_feed] as [cachetools.cached] wraps it: return what the
    cache holds under the credential; otherwise call the function and, if
    it returns, store its result.  [t_get] and [t_set] are the clock
    readings of the look-up and of the store. *)
Definition generate_merged_feed (up : Upstream) (t_get t_set : Q)
    (patreon_auth_token : string) : M FeedGenerator :=
  fun w =>
    let '(hit, c) := cache_getitem t_get patreon_auth_token (cache w) in
    let w := w <| cache := c |> in
    match hit with
    | Some v => (Ok v, w)
    | None =>
        match generate_merged_feed_wrapped up patreon_auth_token w with
        | (Ok v, w) =>
            (Ok v, w <| cache ::= cache_setitem t_set patreon_auth_token v |>)
        | (Raise e, w) => (Raise e, w)
        end
    end.

(** *** The routes *)

Record Response := {
  content : string;
  media_type : string;
  headers : list (string * string);
}.

(** [except HTTPException: raise] and
    [except Exception as e: raise HTTPException(status_code=500, ...)]. *)
Definition serving_error (str : exn -> string) (e : exn) : exn :=
  match e with
  | HTTPException _ _ => e
  | _ => HTTPException (VInt 500) ("Error serving feed: " +:+ str e)
  end.

Section Routes.
(** [FeedGenerator.rss_str], [FeedGenerator.atom_str] and [str] on an
    exception belong to [feedgen] and to Python. *)
Variables rss_str atom_str : FeedGenerator -> result string.
Variable str : exn -> string.

(** The body the two routes share: [render] is [rss_str] or [atom_str],
    [mime] the media type. *)
Definition serve (render : FeedGenerator -> result string) (mime : string)
    (up : Upstream) (t_get t_set : Q) (auth : string) : M Response :=
  fun w =>
    match generate_merged_feed up t_get t_set auth w with
    | (Ok merged_feed, w) =>
        match render merged_feed with
        | Ok feed_content =>
            (Ok {| content := feed_content;
                   media_type := mime;
                   headers := [ ("Cache-Control", "public, max-age=60");
                                ("Content-Type", mime +:+ "; charset=utf-8") ] |}, w)
        | Raise e => (Raise (serving_error str e), w)
        end
    | (Raise e, w) => (Raise (serving_error str e), w)
    end.

(** [GET /rss?auth=...] and [GET /atom?auth=...]. *)
Definition rss : Upstream -> Q -> Q -> string -> M Response :=
  serve rss_str "application/rss+xml".

End Routes.

(** The status of the HTTP response FastAPI sends for a route's outcome:
    200 for a returned [Response], the [status_code] of a raised
    [HTTPException]. *)
Definition response_status (r : result Response) : value :=
  match r with
  | Ok _ => VInt 200
  | Raise (HTTPException status_code _) => status_code
  | Raise _ => VInt 500
  end.

(** ** Reading parsed feeds and merged feeds

    The notions the properties below are stated with. *)

(** The entries of a parsed document. *)
Definition entries_of (feed : gmap string value) : list value :=
  match feed !! "entries" with
  | Some (VList l) => l
  | _ => []
  end.

(** The published timestamp of a source entry, when it has one. *)
Definition published_parsed (entry : value) : option (list Z) :=
  match py_getitem entry "published_parsed" with
  | Ok (VTime t) => Some t
  | _ => None
  end.

(** [a] is published no later than [b]. *)
Definition published_le (a b : value) : Prop :=
  exists ta tb, published_parsed a = Some ta /\ published_parsed b = Some tb
                /\ tuple_lt tb ta = false.

Definition published_at (t : list Z) (entry : value) : bool :=
  bool_decide (published_parsed entry = Some t).

(** The merged feed [fg] holds, in this order, the entries built from the
    source entries [es], numbered from 1. *)
Definition entries_built_from (fg : FeedGenerator) (es : list value) : Prop :=
  Forall2
    (fun fe ie =>
       _set_feed_entry_data
         (FeedEntry_new (load_extension_podcast FeedGenerator_new)) ie.2 ie.1 = Ok fe)
    (fg_entry fg) (enumerate 1 es).

(** The episode number of a merged entry. *)
Definition episode (fe : FeedEntry) : option value :=
  pe_itunes_episode <$> fe_podcast fe.

(** [p] comes no later than [q] in the order of the keys. *)
Definition key_le (p q : value * value) : Prop := py_lt q.1 p.1 = Ok false.

Definition key_is (t : list Z) (k : value) : bool :=
  match k with
  | VTime t' => bool_decide (t' = t)
  | _ => false
  end.

(** Items paired with their [published_parsed] keys. *)
Definition keyed (p : value * value) : Prop :=
  py_getitem p.2 "published_parsed" = Ok p.1.

(** *** The channel in closed form

    What [_set_feed_data] leaves in the generator when it returns, written
    as one record ([_set_feed_data_Ok] below proves it is). *)

Definition field (d : gmap string value) (k : string) : value :=
  default VNone (d !! k).

Definition subdict (d : gmap string value) (k : string) : gmap string value :=
  match d !! k with
  | Some (VDict x) => x
  | _ => ∅
  end.

Definition as_dict (v : value) : option (gmap string value) :=
  match v with
  | VDict d => Some d
  | _ => None
  end.

(** The dicts of a list. *)
Definition dicts_of (v : value) : list (gmap string value) :=
  match v with
  | VList l => omap as_dict l
  | _ => []
  end.

(** The links and tags of a channel or entry; a channel without the key
    has none. *)
Definition links_of (d : gmap string value) : list (gmap string value) :=
  dicts_of (default (VList []) (d !! "links")).

Definition tags_of (d : gmap string value) : list (gmap string value) :=
  dicts_of (default (VList []) (d !! "tags")).

(** A public link as the merged channel carries it. *)
Definition feed_link_of (link : gmap string value) : gmap string value :=
  {[ "rel" := field link "rel"; "href" := field link "href";
     "type" := field link "type"; "length" := field link "length";
     "title" := default (VStr "Acast Feed") (link !! "title") ]}.

Definition category_of (tag : gmap string value) : gmap string value :=
  {[ "term" := field tag "term"; "scheme" := field tag "scheme";
     "label" := field tag "label" ]}.

Definition is_self (link : gmap string value) : bool :=
  py_eq_str (field link "rel") "self".


(** The personal feed's first link with rel "self". *)
Definition self_link (patreon : gmap string value) : option (gmap string value) :=
  List.find is_self (links_of patreon).

(** The link added for the personal feed: one if it has a self link. *)
Definition related_links (patreon : gmap string value) : list (gmap string value) :=
  match self_link patreon with
  | Some link =>
      [ {[ "rel" := VStr "related"; "href" := field link "href";
           "type" := VStr "application/rss+xml"; "title" := VStr "Patreon Feed" ]} ]
  | None => []
  end.

Definition channel (now : value) (fg : FeedGenerator) (acast patreon : gmap string value)
  : FeedGenerator :=
  let author_detail := subdict acast "author_detail" in
  let image := subdict acast "image" in
  {| fg_title := field acast "title";
     fg_description := field acast "summary";
     fg_link := fg_link fg ++ (feed_link_of <$> links_of acast) ++ related_links patreon;
     fg_language := field acast "language";
     fg_rights := field acast "rights";
     fg_ttl := default (VInt __CACHE_TTL__) (acast !! "ttl");
     fg_generator := VStr "Acast and Patreon";
     fg_author := [ {[ "name" := field author_detail "name";
                       "email" := field author_detail "email" ]} ];
     fg_managingEditor := field author_detail "email";
     fg_image := {[ "url" := field image "href"; "title" := field image "title";
                    "link" := field image "link" ]};
     fg_category := fg_category fg ++ (category_of <$> tags_of acast);
     fg_lastBuildDate := now;
     fg_podcast := Some {|
       pc_itunes_explicit := field acast "itunes_explicit";
       pc_itunes_type := field acast "itunes_type";
       pc_itunes_author := field author_detail "name";
       pc_itunes_image := field image "href";
       pc_itunes_subtitle := field patreon "subtitle";
       pc_itunes_summary := field acast "summary";
       pc_itunes_owner := {[ "name" := field author_detail "name";
                             "email" := field author_detail "email" ]};
     |};
     fg_entry := fg_entry fg;
  |}.

(** The keys [_set_feed_data] reads with [d[k]]. *)
Definition acast_required : list string :=
  ["title"; "summary"; "language"; "rights"; "author_detail"; "image";
   "itunes_explicit"; "itunes_type"].

Definition patreon_required : list string := ["links"; "subtitle"].

(** *** Complete feeds

    A pair of channels on which [_set_feed_data] finds all it reads: the
    keys it subscripts are there, the author and the image are dicts, the
    links and tags are lists of dicts, and the personal feed's self link,
    if any, has an [href]. *)

Definition has (d : gmap string value) (k : string) : bool :=
  match d !! k with Some _ => true | None => false end.

Definition is_dict (v : value) : bool :=
  match v with VDict _ => true | _ => false end.

Definition is_list_of_dicts (v : value) : bool :=
  match v with VList l => forallb is_dict l | _ => false end.

Definition complete (acast patreon : gmap string value) : bool :=
  forallb (has acast) acast_required
  && forallb (has patreon) patreon_required
  && is_dict (field acast "author_detail")
  && is_dict (field acast "image")
  && is_list_of_dicts (default (VList []) (acast !! "links"))
  && is_list_of_dicts (default (VList []) (acast !! "tags"))
  && is_list_of_dicts (field patreon "links")
  && match self_link patreon with
     | Some link => has link "href"
     | None => true
     end.

(** *** The merged entry in closed form *)

(** An entry's link as the merged entry carries it. *)
Definition entry_link_of (link : gmap string value) : gmap string value :=
  {[ "rel" := field link "rel"; "href" := field link "href";
     "type" := field link "type"; "length" := field link "length" ]}.

(** What [_set_feed_entry_data] leaves in the entry when it returns
    ([_set_feed_entry_data_Ok] below). *)
Definition merged_entry (fe : FeedEntry) (entry : gmap string value) (number : Z)
  : FeedEntry :=
  let summary_detail := subdict entry "summary_detail" in
  {| fe_title := field entry "title";
     fe_link := fe_link fe ++ (entry_link_of <$> dicts_of (field entry "links"));
     fe_summary := field summary_detail "value";
     fe_summary_type := field summary_detail "type";
     fe_guid := field entry "id";
     fe_guid_permalink := field entry "guidislink";
     fe_published := field entry "published";
     fe_podcast := Some {|
       pe_itunes_season := default (VInt 1) (entry !! "itunes_season");
       pe_itunes_episode := VInt number;
       pe_itunes_explicit := field entry "itunes_explicit";
       pe_itunes_duration := field entry "itunes_duration";
       pe_itunes_episode_type := default (VStr "full") (entry !! "itunes_episodetype");
       pe_itunes_title := field entry "itunes_title";
     |};
  |}.



(** ** Sample feeds

    Two small documents of the shape [feedparser] returns for the two
    sources, and variations of them, to run the program on. *)

Definition ex_entry (id : string) (published : list Z) : value :=
  VDict {[ "title" := VStr ("Episode " +:+ id);
           "links" := VList [ VDict {[ "rel" := VStr "enclosure";
                                       "href" := VStr ("https://cdn.example/" +:+ id);
                                       "type" := VStr "audio/mpeg";
                                       "length" := VStr "1024" ]} ];
           "summary_detail" := VDict {[ "value" := VStr "Notes";
                                        "type" := VStr "text/html" ]};
           "id" := VStr id;
           "guidislink" := VBool false;
           "published" := VStr "Mon, 01 Jan 2024 10:00:00 GMT";
           "published_parsed" := VTime published ]}.


Definition ex_acast_channel : gmap string value :=
  {[ "title" := VStr "Erdbeerkaese";
     "summary" := VStr "Der Podcast";
     "language" := VStr "de";
     "rights" := VStr "All rights reserved";
     "generator" := VStr "acast.com";
     "links" := VList [ VDict {[ "rel" := VStr "self";
                                 "href" := VStr __ACAST_URL;
                                 "type" := VStr "application/rss+xml" ]} ];
     "author_detail" := VDict {[ "name" := VStr "Erdbeerkaese";
                                 "email" := VStr "mail@example.org" ]};
     "image" := VDict {[ "href" := VStr "https://cdn.example/cover.jpg" ]};
     "itunes_explicit" := VNone;
     "itunes_type" := VStr "episodic" ]}.

Definition ex_patreon_channel : gmap string value :=
  {[ "links" := VList [ VDict {[ "rel" := VStr "self";
                                 "href" := VStr "https://www.patreon.com/rss/erdbeerkaese" ]} ];
     "subtitle" := VStr "Bonusfolgen" ]}.

(** A personal channel without a self link. *)
Definition ex_patreon_channel_no_self : gmap string value :=
  {[ "links" := VList []; "subtitle" := VStr "Bonusfolgen" ]}.



Definition ex_acast_doc : gmap string value :=
  {[ "status" := VInt 200;
     "feed" := VDict ex_acast_channel;
     "entries" := VList [ ex_entry "a1" [2024; 1; 1]%Z; ex_entry "a3" [2024; 1; 3]%Z ] ]}.

Definition ex_patreon_doc : gmap string value :=
  {[ "status" := VInt 200;
     "feed" := VDict ex_patreon_channel;
     "entries" := VList [ ex_entry "p2" [2024; 1; 2]%Z; ex_entry "p3" [2024; 1; 3]%Z ] ]}.


(** What Acast answers when it is down. *)
Definition ex_acast_doc_503 : gmap string value :=
  {[ "status" := VInt 503; "feed" := VDict ∅; "entries" := VList [] ]}.

Definition ex_serve (acast_doc patreon_doc : gmap string value) : Upstream :=
  {| parse := fun url => if String.eqb url __ACAST_URL then acast_doc else patreon_doc;
     utcnow := VStr "2024-01-04T00:00:00+00:00" |}.

Definition ex_upstream : Upstream := ex_serve ex_acast_doc ex_patreon_doc.
Definition ex_upstream_503 : Upstream := ex_serve ex_acast_doc_503 ex_patreon_doc.

(** A process that has just started. *)
Definition ex_world : World := {| cache := []; fetched := [] |}.

(** The feed or world a run ends with. *)
Definition returned {A} (dflt : A) (r : result A * World) : A :=
  match r.1 with
  | Ok a => a
  | Raise _ => dflt
  end.

(** The first request of a process, made with the credential "token". *)
Definition ex_first : result FeedGenerator * World :=
  generate_merged_feed ex_upstream 0 1 "token" ex_world.

Definition ex_feed : FeedGenerator := returned FeedGenerator_new ex_first.

(** The generator [generate_merged_feed] hands to [_set_feed_data]. *)
Definition ex_generator : FeedGenerator := load_extension_podcast FeedGenerator_new.

(** Renderers and [str] to run the routes with. *)
Definition ex_render (fg : FeedGenerator) : result string := Ok "<rss/>".
Definition ex_str (e : exn) : string :=
  match e with
  | KeyError k => "'" +:+ k +:+ "'"
  | _ => "error"
  end.

(** The first public sample entry, merged as episode 1. *)
Definition ex_merged_entry : FeedEntry :=
  match _set_feed_entry_data (FeedEntry_new ex_generator)
          (ex_entry "a1" [2024; 1; 1]%Z) 1 with
  | Ok fe => fe
  | Raise _ => FeedEntry_new ex_generator
  end.

(** *** Well-formed documents

    A pair of documents on which the whole build finds all it reads. *)

Definition is_time (v : value) : bool :=
  match v with VTime _ => true | _ => false end.





(** An entry whose date [feedparser] could not parse. *)
Definition ex_entry_unparsed (id : string) : value :=
  VDict {[ "title" := VStr ("Episode " +:+ id);
           "links" := VList [];
           "summary_detail" := VDict {[ "value" := VStr "Notes";
                                        "type" := VStr "text/html" ]};
           "id" := VStr id;
           "guidislink" := VBool false;
           "published" := VStr "yesterday";
           "published_parsed" := VNone ]}.

(** The channel built from the two sample channels. *)
Definition ex_channel : FeedGenerator :=
  channel VNone ex_generator ex_acast_channel ex_patreon_channel.

(** A public channel with two tags and without links. *)
Definition ex_acast_channel_tagged : gmap string value :=
  <[ "tags" := VList [ VDict {[ "term" := VStr "Comedy" ]};
                       VDict {[ "term" := VStr "Society";
                                "scheme" := VStr "http://www.itunes.com/" ]} ] ]>
    (delete "links" ex_acast_channel).



(** The credentials a cache holds feeds for, least recently used first. *)
Definition cache_keys (c : list CacheItem) : list string := ci_key <$> c.

(** A full cache: 1024 items under the keys "", "u", "uu", ..., all
    expiring at 100. *)
Definition ex_full_cache : list CacheItem :=
  (fun i => {| ci_key := Nat.iter i (fun s => "u" +:+ s) ""; ci_expires := 100;
               ci_value := FeedGenerator_new |}) <$> seq 0 maxsize.

(** * Properties *)

(** ** Stepping through code that may raise *)

Lemma bind_Ok {A B} (m : result A) (f : A -> result B) (b : B) :
  (x ← m; f x) = Ok b -> exists a, m = Ok a /\ f a = Ok b.
Proof. destruct m as [a|e]; simpl; [eauto | discriminate]. Qed.

(** Takes a hypothesis [(x ← m; k x) = Ok b] apart, as far as it goes. *)
Ltac bind_inv H :=
  repeat match type of H with
    | mbind _ _ = Ok _ =>
        let x := fresh "x" in
        let E := fresh "E" in
        apply bind_Ok in H as (x & E & H)
    | (let x := _ in _) = Ok _ => cbv zeta in H
    end.

Lemma py_getitem_Ok o k v :
  py_getitem o k = Ok v <-> exists d, o = VDict d /\ d !! k = Some v.
Proof.
  split.
  - destruct o; simpl; try discriminate.
    destruct (d !! k) eqn:E; intros [= <-]. eauto.
  - intros (d & -> & E). simpl. by rewrite E.
Qed.

Lemma py_get_Ok o k dflt v :
  py_get o k dflt = Ok v <-> exists d, o = VDict d /\ v = default dflt (d !! k).
Proof.
  split.
  - destruct o; simpl; try discriminate. intros [= <-]. eexists. split; [done|].
    by destruct (d !! k).
  - intros (d & -> & ->). simpl. by destruct (d !! k).
Qed.

Lemma mapM_Ok_length {A B} (f : A -> result B) xs ys :
  mapM f xs = Ok ys -> length ys = length xs.
Proof.
  revert ys. induction xs as [|x xs IH]; intros ys H; simpl in H.
  - by injection H as <-.
  - bind_inv H. injection H as <-. simpl. f_equal. eauto.
Qed.

Lemma mapM_Ok_Forall2 {A B} (f : A -> result B) xs ys :
  mapM f xs = Ok ys -> Forall2 (fun x y => f x = Ok y) xs ys.
Proof.
  revert ys. induction xs as [|x xs IH]; intros ys H; simpl in H.
  - injection H as <-. constructor.
  - bind_inv H. injection H as <-. constructor; eauto.
Qed.

(** ** The order of [time.struct_time] keys *)

Lemma tuple_lt_irrefl a : tuple_lt a a = false.
Proof. induction a as [|x a IH]; simpl; [done|]. by rewrite Z.eqb_refl. Qed.

Lemma tuple_lt_asym a b : tuple_lt a b = true -> tuple_lt b a = false.
Proof.
  revert b. induction a as [|x a IH]; intros [|y b]; simpl; try done.
  destruct (Z.eqb_spec x y) as [->|Hne].
  - rewrite Z.eqb_refl. apply IH.
  - intros Hlt%Z.ltb_lt. destruct (Z.eqb_spec y x); [lia|]. apply Z.ltb_ge. lia.
Qed.

(** [not (c < b)] and [not (b < a)] give [not (c < a)]. *)
Lemma tuple_le_trans a b c :
  tuple_lt b a = false -> tuple_lt c b = false -> tuple_lt c a = false.
Proof.
  revert b c. induction a as [|x a IH]; intros [|y b] [|z c]; simpl; try done.
  destruct (Z.eqb_spec y x), (Z.eqb_spec z y), (Z.eqb_spec z x);
    rewrite ?Z.ltb_ge; subst; try done; try lia.
  apply IH.
Qed.

(** Two keys neither of which is below the other are the same tuple. *)
Lemma tuple_lt_total a b :
  tuple_lt a b = false -> tuple_lt b a = false -> a = b.
Proof.
  revert b. induction a as [|x a IH]; intros [|y b]; simpl; try done.
  destruct (Z.eqb_spec x y) as [->|Hne].
  - rewrite Z.eqb_refl. intros. f_equal. eauto.
  - destruct (Z.eqb_spec y x); [congruence|].
    intros H1%Z.ltb_ge H2%Z.ltb_ge. lia.
Qed.

(** ** [list.sort] *)

Lemma py_lt_Ok a b r :
  py_lt a b = Ok r -> exists ta tb, a = VTime ta /\ b = VTime tb /\ r = tuple_lt ta tb.
Proof. destruct a, b; simpl; try discriminate. intros [= <-]. eauto. Qed.

Lemma key_le_of_lt p q : py_lt p.1 q.1 = Ok true -> key_le p q.
Proof.
  intros (ta & tb & Ha & Hb & Hlt)%py_lt_Ok. unfold key_le.
  rewrite Ha, Hb. simpl. f_equal. by apply tuple_lt_asym.
Qed.

Lemma key_le_trans p q r : key_le p q -> key_le q r -> key_le p r.
Proof.
  unfold key_le. intros (tq & tp & Hq & Hp & H1)%py_lt_Ok (tr & tq' & Hr & Hq' & H2)%py_lt_Ok.
  rewrite Hr, Hp. simpl. f_equal. rewrite Hq in Hq'. injection Hq' as <-.
  symmetry in H1, H2. eapply tuple_le_trans; eauto.
Qed.

Lemma sort_insert_perm x l s : sort_insert x l = Ok s -> s ≡ₚ x :: l.
Proof.
  revert s. induction l as [|y l IH]; intros s H; simpl in H.
  - by injection H as <-.
  - bind_inv H. destruct x0.
    + bind_inv H. injection H as <-. rewrite (IH _ E0). apply Permutation_swap.
    + by injection H as <-.
Qed.

Lemma sort_insert_sorted x l s :
  StronglySorted key_le l -> sort_insert x l = Ok s -> StronglySorted key_le s.
Proof.
  revert s. induction l as [|y l IH]; intros s Hl H; simpl in H.
  - injection H as <-. repeat constructor.
  - apply StronglySorted_inv in Hl as [Hl Hy]. bind_inv H. destruct x0.
    + bind_inv H. injection H as <-. constructor; [by eauto|].
      rewrite (sort_insert_perm _ _ _ E0). constructor; [|done].
      by apply key_le_of_lt.
    + injection H as <-. constructor; [by constructor|].
      constructor; [done|].
      eapply Forall_impl; [exact Hy|]. intros z Hz. by eapply key_le_trans.
Qed.

Lemma sort_insert_stable t x l s :
  sort_insert x l = Ok s ->
  List.filter (fun p => key_is t p.1) s = List.filter (fun p => key_is t p.1) (x :: l).
Proof.
  revert s. induction l as [|y l IH]; intros s H; simpl in H.
  - by injection H as <-.
  - bind_inv H. destruct x0; [|by injection H as <-].
    bind_inv H. injection H as <-.
    apply py_lt_Ok in E as (ty & tx & Hy & Hx & Hlt).
    cbn [List.filter]. rewrite (IH _ E0). cbn [List.filter].
    rewrite Hy, Hx. simpl.
    do 2 case_bool_decide; subst; try done.
    by rewrite tuple_lt_irrefl in Hlt.
Qed.

Lemma sort_keyed_perm l s : sort_keyed l = Ok s -> s ≡ₚ l.
Proof.
  revert s. induction l as [|x l IH]; intros s H; simpl in H.
  - by injection H as <-.
  - bind_inv H. rewrite (sort_insert_perm _ _ _ H). constructor. eauto.
Qed.

Lemma sort_keyed_sorted l s : sort_keyed l = Ok s -> StronglySorted key_le s.
Proof.
  revert s. induction l as [|x l IH]; intros s H; simpl in H.
  - injection H as <-. constructor.
  - bind_inv H. eapply sort_insert_sorted; eauto.
Qed.

Lemma sort_keyed_stable t l s :
  sort_keyed l = Ok s ->
  List.filter (fun p => key_is t p.1) s = List.filter (fun p => key_is t p.1) l.
Proof.
  revert s. induction l as [|x l IH]; intros s H; simpl in H.
  - by injection H as <-.
  - bind_inv H. rewrite (sort_insert_stable _ _ _ _ H). cbn [List.filter].
    by rewrite (IH _ E).
Qed.

Lemma keyed_published_at t p : keyed p -> published_at t p.2 = key_is t p.1.
Proof.
  unfold keyed, published_at, published_parsed. intros ->.
  destruct p.1; simpl; try done.
  apply bool_decide_ext. split; congruence.
Qed.

Lemma keyed_filter t l :
  Forall keyed l ->
  List.filter (published_at t) l.*2 = (List.filter (fun p => key_is t p.1) l).*2.
Proof.
  induction 1 as [|p l Hp _ IH]; [done|]. cbn [List.filter fmap list_fmap].
  change (list_fmap _ _ snd l) with (l.*2).
  rewrite IH, (keyed_published_at _ _ Hp). by destruct (key_is t p.1).
Qed.

Lemma keyed_le p q : keyed p -> keyed q -> key_le p q -> published_le p.2 q.2.
Proof.
  unfold keyed, key_le, published_le, published_parsed.
  intros -> -> (tq & tp & -> & -> & Hlt)%py_lt_Ok. eauto.
Qed.

Lemma keyed_sorted l :
  Forall keyed l -> StronglySorted key_le l -> StronglySorted published_le l.*2.
Proof.
  induction 2 as [|p l Hl IH Hp]; [constructor|].
  apply Forall_cons in H as [Hk Hks]. cbn. constructor; [by apply IH|].
  apply Forall_fmap. rewrite Forall_forall in *. intros q Hq.
  apply keyed_le; eauto.
Qed.

(** What [raw_entries.sort(key=lambda x: x['published_parsed'])] leaves in
    the list when it returns: the same entries, ordered by timestamp, the
    entries of one timestamp in the order they had. *)
Lemma list_sort_published l s :
  list_sort (fun x => py_getitem x "published_parsed") l = Ok s ->
  s ≡ₚ l /\ StronglySorted published_le s
  /\ forall t, List.filter (published_at t) s = List.filter (published_at t) l.
Proof.
  unfold list_sort. intros H. bind_inv H. injection H as <-.
  rename x into keys, x0 into sp.
  assert (Hlen := mapM_Ok_length _ _ _ E).
  assert (Hl : (zip keys l).*2 = l) by (apply snd_zip; lia).
  assert (Hk : Forall keyed (zip keys l)).
  { apply mapM_Ok_Forall2 in E. clear -E.
    induction E; simpl; constructor; auto. }
  assert (Hperm := sort_keyed_perm _ _ E0).
  assert (Hk' : Forall keyed sp) by by rewrite Hperm.
  split; [|split].
  - by rewrite Hperm, Hl.
  - apply keyed_sorted; [done|]. by eapply sort_keyed_sorted.
  - intros t. rewrite (keyed_filter _ _ Hk'), (sort_keyed_stable _ _ _ E0).
    by rewrite <- (keyed_filter _ _ Hk), Hl.
Qed.

(** ** [_set_feed_data] *)

Lemma py_getitem_dict d k v : py_getitem (VDict d) k = Ok v <-> d !! k = Some v.
Proof.
  simpl. destruct (d !! k); split; intros H; try discriminate; congruence.
Qed.

Lemma py_get_dict d k dflt v :
  py_get (VDict d) k dflt = Ok v <-> v = default dflt (d !! k).
Proof. simpl. destruct (d !! k); simpl; split; congruence. Qed.

Lemma omap_as_dict (ds : list (gmap string value)) :
  omap as_dict (VDict <$> ds) = ds.
Proof. induction ds as [|d ds IH]; csimpl; [done|]. by rewrite IH. Qed.

Lemma omap_as_dict_none {A} (f : A -> value) (l : list A) :
  (forall x, as_dict (f x) = None) -> omap as_dict (f <$> l) = [].
Proof. intros Hf. induction l as [|x l IH]; csimpl; [done|]. by rewrite Hf. Qed.

(** The dicts among the items a loop visits are the dicts of a list. *)
Lemma py_iter_omap v l : py_iter v = Ok l -> omap as_dict l = dicts_of v.
Proof.
  destruct v; simpl; try discriminate; intros [= <-]; try done.
  all: by apply omap_as_dict_none.
Qed.

Lemma lookup_field (d : gmap string value) k v : d !! k = Some v -> v = field d k.
Proof. unfold field. by intros ->. Qed.

(** Turns the successful reads among the hypotheses into facts about the
    dicts read. *)
Ltac py_inv :=
  repeat match goal with
    | H : py_getitem (VDict _) _ = Ok _ |- _ => apply py_getitem_dict in H
    | H : py_get (VDict _) _ _ = Ok _ |- _ => apply py_get_dict in H; subst
    | H : py_getitem ?o _ = Ok _ |- _ =>
        is_var o; let d := fresh "d" in apply py_getitem_Ok in H as (d & -> & H)
    | H : py_get ?o _ _ = Ok _ |- _ =>
        is_var o; let d := fresh "d" in apply py_get_Ok in H as (d & -> & ->)
    end.

Lemma foldlM_add_feed_link fg links g :
  foldlM add_feed_link fg links = Ok g ->
  exists ds, links = VDict <$> ds
             /\ g = fg <| fg_link := fg_link fg ++ (feed_link_of <$> ds) |>.
Proof.
  revert fg. induction links as [|link links IH]; intros fg H; simpl in H.
  - injection H as <-. exists []. split; [done|]. destruct fg; simpl.
    by rewrite app_nil_r.
  - bind_inv H. unfold add_feed_link in E. bind_inv E.
    apply py_get_Ok in E0 as (d & -> & ->).
    apply py_get_dict in E1 as ->, E2 as ->, E3 as ->, E4 as ->.
    injection E as <-. apply IH in H as (ds & -> & ->).
    exists (d :: ds). split; [done|]. destruct fg; simpl.
    by rewrite <- app_assoc.
Qed.

Lemma foldlM_add_feed_category fg tags g :
  foldlM add_feed_category fg tags = Ok g ->
  exists ds, tags = VDict <$> ds
             /\ g = fg <| fg_category := fg_category fg ++ (category_of <$> ds) |>.
Proof.
  revert fg. induction tags as [|tag tags IH]; intros fg H; simpl in H.
  - injection H as <-. exists []. split; [done|]. destruct fg; simpl.
    by rewrite app_nil_r.
  - bind_inv H. unfold add_feed_category in E. bind_inv E.
    apply py_get_Ok in E0 as (d & -> & ->).
    apply py_get_dict in E1 as ->, E2 as ->.
    injection E as <-. apply IH in H as (ds & -> & ->).
    exists (d :: ds). split; [done|]. destruct fg; simpl.
    by rewrite <- app_assoc.
Qed.

Lemma first_self_link_Ok links r :
  first_self_link links = Ok r ->
  r = match List.find is_self (omap as_dict links) with
      | Some link => VDict link
      | None => VNone
      end.
Proof.
  induction links as [|link links IH]; simpl; intros H.
  - by injection H as <-.
  - bind_inv H. apply py_get_Ok in E as (d & -> & ->). simpl.
    unfold is_self at 1, field.
    destruct (py_eq_str (default VNone (d !! "rel")) "self"); [by injection H as <-|].
    by apply IH.
Qed.

Lemma is_self_truthy link : is_self link = true -> py_truthy (VDict link) = true.
Proof.
  unfold is_self, field. intros H. simpl. case_bool_decide; [|done].
  subst. by rewrite lookup_empty in H.
Qed.

(** When [_set_feed_data] returns, both feeds are dicts holding the keys
    it subscripts, the generator has the podcast extension, and the
    generator it leaves is [channel]. *)
Lemma _set_feed_data_Ok now fg acast_data patreon_data g :
  _set_feed_data now fg acast_data patreon_data = Ok g ->
  exists a p, acast_data = VDict a /\ patreon_data = VDict p
    /\ Forall (fun k => is_Some (a !! k)) acast_required
    /\ Forall (fun k => is_Some (p !! k)) patreon_required
    /\ is_Some (fg_podcast fg)
    /\ g = channel now fg a p.
Proof.
  unfold _set_feed_data. intros H. bind_inv H. py_inv.
  rename d into a, d0 into p, d1 into author_detail, d2 into image.
  apply foldlM_add_feed_link in E3 as (ds & -> & ->).
  apply py_iter_omap in E2. rewrite omap_as_dict in E2.
  apply first_self_link_Ok in E6. rewrite (py_iter_omap _ _ E5) in E6.
  apply foldlM_add_feed_category in E21 as (ts & -> & ->).
  apply py_iter_omap in E20. rewrite omap_as_dict in E20.
  exists a, p. split; [done|]. split; [done|].
  split; [repeat constructor; eauto|]. split; [repeat constructor; eauto|].
  assert (Hx7 : x7 = fg <| fg_title := x |> <| fg_description := x0 |>
             <| fg_link := fg_link fg ++ (feed_link_of <$> ds) ++ related_links p |>).
  { unfold related_links, self_link, links_of. rewrite E4. simpl.
    destruct (find is_self (dicts_of x4)) as [link|] eqn:Hf; subst x6.
    - apply find_some in Hf as [_ Hs]. rewrite (is_self_truthy _ Hs) in E7.
      bind_inv E7. py_inv. injection E7 as <-.
      rewrite <- (lookup_field _ _ _ E1). destruct fg; unfold constant; simpl.
      by rewrite <- app_assoc.
    - simpl in E7. injection E7 as <-. by rewrite app_nil_r. }
  subst x7 ds ts. injection H as <-.
  rewrite E0 in E28. injection E28 as <-.
  unfold channel, subdict, field, links_of, tags_of.
  rewrite E, E0, E8, E9, E11, E15, E23, E24, E27.
  destruct fg as [? ? ? ? ? ? ? ? ? ? ? ? [p0|] ?]; [|discriminate E22].
  split; [by eexists|]. reflexivity.
Qed.

Lemma is_list_of_dicts_spec v :
  is_list_of_dicts v = true -> exists ds : list (gmap string value), v = VList (VDict <$> ds).
Proof.
  destruct v as [| | | | |l|]; simpl; try discriminate.
  induction l as [|x l IH]; simpl; intros H.
  - by exists [].
  - apply andb_prop in H as [Hx Hl]. destruct x; try discriminate.
    destruct (IH Hl) as (ds & [= ->]). by exists (d :: ds).
Qed.


Lemma foldlM_add_feed_link_dicts fg (ds : list (gmap string value)) :
  is_ok (foldlM add_feed_link fg (VDict <$> ds)) = true.
Proof.
  revert fg. induction ds as [|d ds IH]; intros fg; [done|].
  cbn [fmap list_fmap foldlM]. unfold add_feed_link at 1. simpl. apply IH.
Qed.


Lemma first_self_link_dicts (ds : list (gmap string value)) :
  first_self_link (VDict <$> ds)
  = Ok (match List.find is_self ds with Some link => VDict link | None => VNone end).
Proof.
  induction ds as [|d ds IH]; [done|].
  cbn [fmap list_fmap first_self_link List.find]. simpl.
  unfold is_self at 1, field. simpl.
  destruct (py_eq_str _ "self"); [done | apply IH].
Qed.

Lemma is_ok_Ok {A} (r : result A) : is_ok r = true -> exists a, r = Ok a.
Proof. destruct r; [eauto | discriminate]. Qed.

Lemma bind_Ok_eq {A B} (m : result A) (f : A -> result B) a :
  m = Ok a -> (x ← m; f x) = f a.
Proof. by intros ->. Qed.

Lemma py_get_VDict d k dflt : py_get (VDict d) k dflt = Ok (default dflt (d !! k)).
Proof. simpl. by destruct (d !! k). Qed.

Lemma py_getitem_VDict d k v : d !! k = Some v -> py_getitem (VDict d) k = Ok v.
Proof. simpl. by intros ->. Qed.



(** Runs the code of the goal forward over reads known to succeed. *)
Ltac run :=
  repeat first
    [ erewrite bind_Ok_eq
        by first [ apply py_get_VDict | apply py_getitem_VDict; eassumption
                 | eassumption | reflexivity ]
    | progress cbv zeta ].


(** ** [_set_feed_entry_data] *)

Lemma foldlM_add_entry_link fe links fe' :
  foldlM add_entry_link fe links = Ok fe' ->
  exists ds, links = VDict <$> ds
             /\ fe' = fe <| fe_link := fe_link fe ++ (entry_link_of <$> ds) |>.
Proof.
  revert fe. induction links as [|link links IH]; intros fe H; simpl in H.
  - injection H as <-. exists []. split; [done|]. destruct fe; simpl.
    by rewrite app_nil_r.
  - bind_inv H. unfold add_entry_link in E. bind_inv E.
    apply py_get_Ok in E0 as (d & -> & ->).
    apply py_get_dict in E1 as ->, E2 as ->, E3 as ->.
    injection E as <-. apply IH in H as (ds & -> & ->).
    exists (d :: ds). split; [done|]. destruct fe; simpl.
    by rewrite <- app_assoc.
Qed.

(** When [_set_feed_entry_data] returns, the source entry is a dict holding
    the keys it subscripts, and the entry it leaves is [merged_entry]. *)
Lemma _set_feed_entry_data_Ok fe entry number fe' :
  _set_feed_entry_data fe entry number = Ok fe' ->
  exists d sd,
    entry = VDict d
    /\ d !! "summary_detail" = Some (VDict sd)
    /\ Forall (fun k => is_Some (d !! k)) ["title"; "links"; "id"; "guidislink"; "published"]
    /\ Forall (fun k => is_Some (sd !! k)) ["value"; "type"]
    /\ fe' = merged_entry fe d number.
Proof.
  unfold _set_feed_entry_data. intros H. bind_inv H. py_inv.
  rename d into e, d0 into sd.
  apply foldlM_add_entry_link in E2 as (ds & -> & ->).
  assert (Hl : exists v, e !! "links" = Some v).
  { destruct (e !! "links"); [eauto | discriminate]. }
  destruct Hl as [lv Hl]. rewrite Hl in E1. simpl in E1.
  apply py_iter_omap in E1. rewrite omap_as_dict in E1. subst ds.
  exists e, sd. split; [done|]. split; [done|].
  split; [repeat constructor; eauto|]. split; [repeat constructor; eauto|].
  injection H as <-. unfold merged_entry, subdict, field.
  rewrite E, E3, E4, E5, E6, E7, E8, Hl.
  destruct fe as [? ? ? ? ? ? ? [p0|]]; [|discriminate E9].
  reflexivity.
Qed.

(** ** [generate_merged_feed] *)

Lemma FeedEntry_new_podcast g g' :
  fg_podcast g = fg_podcast g' -> FeedEntry_new g = FeedEntry_new g'.
Proof. unfold FeedEntry_new. by intros ->. Qed.

Lemma foldlM_add_merged_entry g n es g' :
  foldlM add_merged_entry g (enumerate n es) = Ok g' ->
  exists fes,
    g' = g <| fg_entry := fg_entry g ++ fes |>
    /\ Forall2 (fun fe ie => _set_feed_entry_data (FeedEntry_new g) ie.2 ie.1 = Ok fe)
         fes (enumerate n es).
Proof.
  revert g n. induction es as [|e es IH]; intros g n H; simpl in H.
  - injection H as <-. exists []. split; [|constructor].
    destruct g; simpl. by rewrite app_nil_r.
  - bind_inv H. unfold add_merged_entry in E. bind_inv E. injection E as <-.
    apply IH in H as (fes & -> & Hfes). exists (x0 :: fes). split.
    + destruct g; simpl. by rewrite <- app_assoc.
    + constructor; [done|].
      erewrite FeedEntry_new_podcast; [exact Hfes|]. by destruct g.
Qed.

Lemma py_add_list_Ok a b l :
  py_add_list a b = Ok l -> exists l1 l2, a = VList l1 /\ b = VList l2 /\ l = l1 ++ l2.
Proof.
  destruct a, b; simpl; try discriminate. intros [= <-]. eauto.
Qed.

Lemma entries_of_get feed l :
  default (VList []) (feed !! "entries") = VList l -> entries_of feed = l.
Proof.
  unfold entries_of. destruct (feed !! "entries") as [[]|]; simpl; congruence.
Qed.

(** What the code after the two fetches has built when it returns. *)
Lemma merge_parsed_Ok now acast_feed patreon_feed fg :
  merge_parsed now (VDict acast_feed) (VDict patreon_feed) = Ok fg ->
  exists a p es,
    acast_feed !! "feed" = Some (VDict a)
    /\ patreon_feed !! "feed" = Some (VDict p)
    /\ list_sort (fun x => py_getitem x "published_parsed")
         (entries_of acast_feed ++ entries_of patreon_feed) = Ok es
    /\ entries_built_from fg es
    /\ fg = (channel now (load_extension_podcast FeedGenerator_new) a p)
              <| fg_entry := fg_entry fg |>.
Proof.
  unfold merge_parsed. intros H. bind_inv H. py_inv.
  apply _set_feed_data_Ok in E1 as (a & p & -> & -> & _ & _ & _ & ->).
  apply py_add_list_Ok in E4 as (l1 & l2 & Hl1 & Hl2 & ->).
  apply entries_of_get in Hl1, Hl2. rewrite <- Hl1, <- Hl2 in E5.
  apply foldlM_add_merged_entry in H as (fes & -> & Hfes).
  exists a, p, x5. by repeat split.
Qed.

(** ** The fetches *)

Lemma wrapped_Ok up token w fg w' :
  generate_merged_feed_wrapped up token w = (Ok fg, w') ->
  merge_parsed (utcnow up) (VDict (parse up __ACAST_URL))
    (VDict (parse up (__PATREON_URL token))) = Ok fg
  /\ w' = w <| fetched := fetched w ++ [__ACAST_URL; __PATREON_URL token] |>.
Proof.
  unfold generate_merged_feed_wrapped, mbind, M_bind, feedparser_parse, lift, raise.
  destruct (py_getattr _ "status") as [s1|]; [|discriminate].
  destruct (py_ge_int s1 _) as [[]|]; try discriminate.
  destruct (py_getattr _ "status") as [s2|]; [|discriminate].
  destruct (py_ge_int s2 _) as [[]|]; try discriminate.
  destruct (merge_parsed _ _ _); [|discriminate].
  intros [= <- <-]. split; [done|]. destruct w; simpl. by rewrite <- app_assoc.
Qed.

(** The function under the decorator does not touch the cache, and the
    first thing it does is fetch the public feed. *)
Lemma wrapped_world up token w :
  cache (generate_merged_feed_wrapped up token w).2 = cache w
  /\ exists rest,
      fetched (generate_merged_feed_wrapped up token w).2
      = fetched w ++ __ACAST_URL :: rest.
Proof.
  unfold generate_merged_feed_wrapped, mbind, M_bind, feedparser_parse, lift, raise.
  destruct w as [c log]. simpl.
  repeat match goal with
    | |- context [match ?r with Ok _ => _ | Raise _ => _ end] => destruct r; simpl
    | |- context [if ?b then _ else _] => destruct b; simpl
    end;
    rewrite <- ?app_assoc; simpl; eauto.
Qed.

Lemma wrapped_acast_error up token w s :
  parse up __ACAST_URL !! "status" = Some (VInt s) -> (__HTTP_ERROR__ <= s)%Z ->
  generate_merged_feed_wrapped up token w
  = (Raise (HTTPException (VInt s) "Error fetching Acast feed"),
     w <| fetched := fetched w ++ [__ACAST_URL] |>).
Proof.
  intros Hs Hge.
  unfold generate_merged_feed_wrapped, mbind, M_bind, feedparser_parse, lift, raise.
  simpl. rewrite Hs. simpl.
  destruct (Z.leb_spec __HTTP_ERROR__ s); [|lia]. by destruct w.
Qed.

Lemma wrapped_patreon_error up token w s0 s :
  parse up __ACAST_URL !! "status" = Some (VInt s0) -> (s0 < __HTTP_ERROR__)%Z ->
  parse up (__PATREON_URL token) !! "status" = Some (VInt s) -> (__HTTP_ERROR__ <= s)%Z ->
  generate_merged_feed_wrapped up token w
  = (Raise (HTTPException (VInt s) "Error fetching Patreon feed. Auth token correct?"),
     w <| fetched := fetched w ++ [__ACAST_URL; __PATREON_URL token] |>).
Proof.
  intros Hs0 Hlt Hs Hge.
  unfold generate_merged_feed_wrapped, mbind, M_bind, feedparser_parse, lift, raise.
  simpl. rewrite Hs0. simpl.
  destruct (Z.leb_spec __HTTP_ERROR__ s0); [lia|]. simpl. rewrite Hs. simpl.
  destruct (Z.leb_spec __HTTP_ERROR__ s); [|lia]. destruct w; simpl.
  by rewrite <- app_assoc.
Qed.

(** ** The cache *)

Lemma live_lt time it : live time it = true <-> (time < ci_expires it)%Q.
Proof.
  unfold live. rewrite negb_true_iff, <- not_true_iff_false, Qle_bool_iff.
  split; [apply Qnot_le_lt | apply Qlt_not_le].
Qed.

Lemma live_mono t t2 it : (t <= t2)%Q -> live t it = false -> live t2 it = false.
Proof.
  intros Hle. rewrite <- !not_true_iff_false, !live_lt. intros Hn Hlt.
  apply Hn. lra.
Qed.

Lemma find_filter_snoc {A} (f : A -> bool) l x :
  f x = true -> List.find f (List.filter (fun y => negb (f y)) l ++ [x]) = Some x.
Proof.
  intros Hx. induction l as [|y l IH]; simpl; [by rewrite Hx|].
  destruct (f y) eqn:Hy; simpl; [done|]. by rewrite Hy.
Qed.



(** A failed look-up leaves a cache in which the key stays missing. *)
Lemma getitem_miss_stays t t2 k c :
  (cache_getitem t k c).1 = None -> (t <= t2)%Q ->
  (cache_getitem t2 k (cache_getitem t k c).2).1 = None.
Proof.
  unfold cache_getitem at 1 3. destruct (List.find (has_key k) c) as [it|] eqn:Hf.
  - simpl. destruct (live t it) eqn:Hl; [discriminate|]. intros _ Hle.
    unfold cache_getitem. apply find_some in Hf as [_ Hk].
    rewrite find_filter_snoc by done. simpl. by rewrite (live_mono _ _ _ Hle Hl).
  - simpl. intros _ _. unfold cache_getitem. by rewrite Hf.
Qed.

(** * The claims *)

(** ** Order of the merged entries *)

(** The source entries behind a built feed. *)
Lemma wrapped_entries up token w fg w' :
  generate_merged_feed_wrapped up token w = (Ok fg, w') ->
  exists es,
    list_sort (fun x => py_getitem x "published_parsed")
      (entries_of (parse up __ACAST_URL) ++ entries_of (parse up (__PATREON_URL token)))
    = Ok es
    /\ entries_built_from fg es.
Proof.
  intros [H _]%wrapped_Ok.
  apply merge_parsed_Ok in H as (a & p & es & _ & _ & Hsort & Hbuilt & _). eauto.
Qed.

(** C1.  When [generate_merged_feed] builds a feed, its entries are, in
    order, the entries built from a list [es] of source entries that holds
    exactly the public and the personal entries, is sorted non-decreasing
    by published timestamp, and keeps the entries of one timestamp in the
    order of the concatenation: the public ones first, then the personal
    ones, each group in its source order. *)
Theorem merged_entries_sorted_stable up token w fg w' :
  generate_merged_feed_wrapped up token w = (Ok fg, w') ->
  exists es,
    entries_built_from fg es
    /\ es ≡ₚ entries_of (parse up __ACAST_URL) ++ entries_of (parse up (__PATREON_URL token))
    /\ StronglySorted published_le es
    /\ forall t,
        List.filter (published_at t) es
        = List.filter (published_at t) (entries_of (parse up __ACAST_URL))
          ++ List.filter (published_at t) (entries_of (parse up (__PATREON_URL token))).
Proof.
  intros (es & Hsort & Hbuilt)%wrapped_entries.
  apply list_sort_published in Hsort as (Hperm & Hsorted & Hstable).
  exists es. repeat split; try done.
  intros t. by rewrite Hstable, List.filter_app.
Qed.

Lemma merged_entries_sorted_stable_witness :
  exists es,
    entries_built_from ex_feed es
    /\ es ≡ₚ entries_of (parse ex_upstream __ACAST_URL)
             ++ entries_of (parse ex_upstream (__PATREON_URL "token"))
    /\ StronglySorted published_le es
    /\ forall t,
        List.filter (published_at t) es
        = List.filter (published_at t) (entries_of (parse ex_upstream __ACAST_URL))
          ++ List.filter (published_at t)
               (entries_of (parse ex_upstream (__PATREON_URL "token"))).
Proof.
  apply (merged_entries_sorted_stable ex_upstream "token" ex_world ex_feed
           (generate_merged_feed_wrapped ex_upstream "token" ex_world).2).
  vm_compute. reflexivity.
Defined.

(** ** Episode numbers *)

Lemma built_episodes fe0 fes n es :
  Forall2 (fun fe ie => _set_feed_entry_data fe0 ie.2 ie.1 = Ok fe)
    fes (enumerate (Z.of_nat n) es) ->
  episode <$> fes = (fun i => Some (VInt (Z.of_nat i))) <$> seq n (length fes).
Proof.
  revert fes n. induction es as [|e es IH]; intros fes n H; simpl in H.
  - by apply Forall2_nil_inv_r in H as ->.
  - apply Forall2_cons_inv_r in H as (fe & fes' & Hfe & Hfes & ->).
    simpl in Hfe. apply _set_feed_entry_data_Ok in Hfe as (d & sd & _ & _ & _ & _ & ->).
    csimpl. f_equal. apply IH.
    by replace (Z.of_nat (S n)) with (Z.of_nat n + 1)%Z by lia.
Qed.

Lemma enumerate_length {A} n (l : list A) : length (enumerate n l) = length l.
Proof. revert n. induction l as [|x l IH]; intros n; simpl; [done|]. by rewrite IH. Qed.

(** C2.  The episode numbers of a merged feed are 1, 2, ..., N in the
    order of its entries, N being the number of its entries, which is the
    number of public plus the number of personal entries. *)
Theorem episode_numbers_dense up token w fg w' :
  generate_merged_feed_wrapped up token w = (Ok fg, w') ->
  episode <$> fg_entry fg
  = (fun i => Some (VInt (Z.of_nat i))) <$> seq 1 (length (fg_entry fg))
  /\ length (fg_entry fg)
     = (length (entries_of (parse up __ACAST_URL))
        + length (entries_of (parse up (__PATREON_URL token))))%nat.
Proof.
  intros (es & Hsort & Hbuilt)%wrapped_entries.
  apply list_sort_published in Hsort as (Hperm & _).
  unfold entries_built_from in Hbuilt. split.
  - by eapply (built_episodes _ _ 1).
  - apply Forall2_length in Hbuilt. rewrite Hbuilt, enumerate_length.
    by rewrite Hperm, length_app.
Qed.

Lemma episode_numbers_dense_witness :
  episode <$> fg_entry ex_feed
  = (fun i => Some (VInt (Z.of_nat i))) <$> seq 1 (length (fg_entry ex_feed))
  /\ length (fg_entry ex_feed)
     = (length (entries_of (parse ex_upstream __ACAST_URL))
        + length (entries_of (parse ex_upstream (__PATREON_URL "token"))))%nat.
Proof.
  apply (episode_numbers_dense ex_upstream "token" ex_world ex_feed
           (generate_merged_feed_wrapped ex_upstream "token" ex_world).2).
  vm_compute. reflexivity.
Defined.

(** The sample feeds merge to a1, p2, a3, p3, numbered 1 to 4: the public
    a3 and the personal p3 carry the same timestamp. *)
Example ex_feed_order :
  (fun fe => (fe_guid fe, episode fe)) <$> fg_entry ex_feed
  = [ (VStr "a1", Some (VInt 1)); (VStr "p2", Some (VInt 2));
      (VStr "a3", Some (VInt 3)); (VStr "p3", Some (VInt 4)) ].
Proof. vm_compute. reflexivity. Qed.

(** ** Entries without a timestamp *)





(** ** The cache *)

Lemma generate_miss up t t' token w :
  (cache_getitem t token (cache w)).1 = None ->
  generate_merged_feed up t t' token w
  = match generate_merged_feed_wrapped up token
            (w <| cache := (cache_getitem t token (cache w)).2 |>) with
    | (Ok v, w1) => (Ok v, w1 <| cache ::= cache_setitem t' token v |>)
    | (Raise e, w1) => (Raise e, w1)
    end.
Proof.
  unfold generate_merged_feed.
  destruct (cache_getitem t token (cache w)) as [[v|] c]; simpl; [discriminate|done].
Qed.


(** A request that misses the cache fetches the public feed first. *)
Lemma generate_miss_fetches up t t' token w :
  (cache_getitem t token (cache w)).1 = None ->
  exists rest,
    fetched (generate_merged_feed up t t' token w).2 = fetched w ++ __ACAST_URL :: rest.
Proof.
  intros Hmiss. rewrite (generate_miss _ _ _ _ _ Hmiss).
  destruct (wrapped_world up token (w <| cache := (cache_getitem t token (cache w)).2 |>))
    as [_ [rest Hrest]].
  destruct (generate_merged_feed_wrapped _ _ _) as [[v|e] w1]; simpl in *.
  - exists rest. destruct w1, w; simpl in *. done.
  - exists rest. destruct w; simpl in *. done.
Qed.




(** Two requests 30 seconds apart fetch each source once; a third, 61
    seconds after the store, fetches both again. *)
Example ex_two_requests :
  let w2 := (generate_merged_feed ex_upstream 30 31 "token" ex_first.2).2 in
  fetched w2 = [__ACAST_URL; __PATREON_URL "token"]
  /\ fetched (generate_merged_feed ex_upstream 62 63 "token" w2).2
     = [__ACAST_URL; __PATREON_URL "token"; __ACAST_URL; __PATREON_URL "token"].
Proof. vm_compute. done. Qed.

(** ** Upstream errors *)

(** A request that missed the cache and whose build raised leaves the
    cache as the look-up left it. *)
Lemma generate_Raise up t t' token w e w1 :
  generate_merged_feed up t t' token w = (Raise e, w1) ->
  (cache_getitem t token (cache w)).1 = None
  /\ generate_merged_feed_wrapped up token
       (w <| cache := (cache_getitem t token (cache w)).2 |>) = (Raise e, w1)
  /\ cache w1 = (cache_getitem t token (cache w)).2.
Proof.
  unfold generate_merged_feed.
  destruct (cache_getitem t token (cache w)) as [[v|] c] eqn:Hget; simpl; [discriminate|].
  pose proof (proj1 (wrapped_world up token (w <| cache := c |>))) as Hc.
  destruct (generate_merged_feed_wrapped _ _ _) as [[v|e'] w0]; [discriminate|].
  intros [= -> ->]. split; [done|]. split; [done|]. by destruct w.
Qed.

Lemma serve_Raise str render mime up t t' auth w e w1 :
  generate_merged_feed up t t' auth w = (Raise e, w1) ->
  serve str render mime up t t' auth w = (Raise (serving_error str e), w1).
Proof. unfold serve. by intros ->. Qed.

(** C6.  On a request that reaches the upstream (the cache has no live
    feed for the credential), if the public feed answers with a status
    [s >= 400], or answers below 400 and the personal feed answers with
    [s >= 400], the route raises [HTTPException] with status [s], the
    service answers [s], and nothing is stored in the cache.  The public
    status is checked first: when it is the failing one, the personal feed
    is not fetched. *)
Theorem upstream_status_passed_through str render mime up t t' auth w s :
  (cache_getitem t auth (cache w)).1 = None ->
  (400 <= s)%Z ->
  parse up __ACAST_URL !! "status" = Some (VInt s)
  \/ (exists s0, parse up __ACAST_URL !! "status" = Some (VInt s0) /\ (s0 < 400)%Z
                 /\ parse up (__PATREON_URL auth) !! "status" = Some (VInt s)) ->
  (exists detail,
      (serve str render mime up t t' auth w).1 = Raise (HTTPException (VInt s) detail))
  /\ response_status (serve str render mime up t t' auth w).1 = VInt s
  /\ cache (serve str render mime up t t' auth w).2 = (cache_getitem t auth (cache w)).2
  /\ (parse up __ACAST_URL !! "status" = Some (VInt s) ->
      fetched (serve str render mime up t t' auth w).2 = fetched w ++ [__ACAST_URL]).
Proof.
  intros Hmiss Hs [Hst|(s0 & Hst0 & Hlt & Hst)].
  - erewrite serve_Raise.
    2:{ rewrite (generate_miss _ _ _ _ _ Hmiss).
        by rewrite (wrapped_acast_error _ _ _ _ Hst Hs). }
    destruct w; simpl; eauto 10.
  - erewrite serve_Raise.
    2:{ rewrite (generate_miss _ _ _ _ _ Hmiss).
        by rewrite (wrapped_patreon_error _ _ _ _ _ Hst0 Hlt Hst Hs). }
    destruct w; simpl. repeat split; eauto.
    intros Hst'. rewrite Hst0 in Hst'. injection Hst' as ->. unfold __HTTP_ERROR__ in *. lia.
Qed.

Lemma upstream_status_passed_through_witness :
  (exists detail,
      (rss ex_render ex_str ex_upstream_503 0 1 "token" ex_world).1
      = Raise (HTTPException (VInt 503) detail))
  /\ response_status (rss ex_render ex_str ex_upstream_503 0 1 "token" ex_world).1
     = VInt 503
  /\ cache (rss ex_render ex_str ex_upstream_503 0 1 "token" ex_world).2
     = (cache_getitem 0 "token" (cache ex_world)).2
  /\ (parse ex_upstream_503 __ACAST_URL !! "status" = Some (VInt 503) ->
      fetched (rss ex_render ex_str ex_upstream_503 0 1 "token" ex_world).2
      = fetched ex_world ++ [__ACAST_URL]).
Proof.
  apply (upstream_status_passed_through ex_str ex_render "application/rss+xml"
           ex_upstream_503 0 1 "token" ex_world 503).
  - vm_compute. reflexivity.
  - lia.
  - left. vm_compute. reflexivity.
Defined.

(** Acast down: the route answers 503, only Acast was asked, the cache
    stays empty. *)
Example ex_acast_503 :
  let r := rss ex_render ex_str ex_upstream_503 0 1 "token" ex_world in
  response_status r.1 = VInt 503 /\ fetched r.2 = [__ACAST_URL] /\ cache r.2 = [].
Proof. vm_compute. done. Qed.

(** C7.  When a request's build raises, nothing is stored: the cache is
    what the look-up left, no later look-up finds a feed under the
    credential, and the next request with it fetches again. *)
Theorem failed_build_not_cached up t t' token w e w1 :
  generate_merged_feed up t t' token w = (Raise e, w1) ->
  cache w1 = (cache_getitem t token (cache w)).2
  /\ forall t2, (t <= t2)%Q ->
       (cache_getitem t2 token (cache w1)).1 = None
       /\ forall up2 t2', exists rest,
            fetched (generate_merged_feed up2 t2 t2' token w1).2
            = fetched w1 ++ __ACAST_URL :: rest.
Proof.
  intros (Hmiss & _ & Hc)%generate_Raise. split; [done|].
  intros t2 Hle.
  assert (Hmiss2 : (cache_getitem t2 token (cache w1)).1 = None).
  { rewrite Hc. by apply getitem_miss_stays. }
  split; [done|]. intros up2 t2'. by apply generate_miss_fetches.
Qed.

Lemma failed_build_not_cached_witness :
  cache (generate_merged_feed ex_upstream_503 0 1 "token" ex_world).2
  = (cache_getitem 0 "token" (cache ex_world)).2
  /\ forall t2, (0 <= t2)%Q ->
       (cache_getitem t2 "token"
          (cache (generate_merged_feed ex_upstream_503 0 1 "token" ex_world).2)).1 = None
       /\ forall up2 t2', exists rest,
            fetched (generate_merged_feed up2 t2 t2' "token"
                       (generate_merged_feed ex_upstream_503 0 1 "token" ex_world).2).2
            = fetched (generate_merged_feed ex_upstream_503 0 1 "token" ex_world).2
              ++ __ACAST_URL :: rest.
Proof.
  apply (failed_build_not_cached ex_upstream_503 0 1 "token" ex_world
           (HTTPException (VInt 503) "Error fetching Acast feed")).
  vm_compute. reflexivity.
Defined.

(** After Acast was down, the next request asks Acast again and, Acast
    being back, builds and stores the feed. *)
Example ex_retry_after_503 :
  let w1 := (generate_merged_feed ex_upstream_503 0 1 "token" ex_world).2 in
  let r := generate_merged_feed ex_upstream 2 3 "token" w1 in
  r.1 = Ok ex_feed
  /\ fetched r.2 = [__ACAST_URL; __ACAST_URL; __PATREON_URL "token"]
  /\ ci_key <$> cache r.2 = ["token"].
Proof. vm_compute. done. Qed.

(** ** The channel *)

Lemma py_getitem_field (d : gmap string value) k :
  is_Some (d !! k) -> py_getitem (VDict d) k = Ok (field d k).
Proof. intros [v Hv]. unfold field. simpl. by rewrite Hv. Qed.






(** C8 (as the code has it).  The merged channel's title, description,
    language and rights are the public feed's title, summary, language and
    rights; its generator label is the fixed text "Acast and Patreon". *)
Theorem channel_public_fields now fg acast_data patreon_data g :
  _set_feed_data now fg acast_data patreon_data = Ok g ->
  py_getitem acast_data "title" = Ok (fg_title g)
  /\ py_getitem acast_data "summary" = Ok (fg_description g)
  /\ py_getitem acast_data "language" = Ok (fg_language g)
  /\ py_getitem acast_data "rights" = Ok (fg_rights g)
  /\ fg_generator g = VStr "Acast and Patreon".
Proof.
  intros H. apply _set_feed_data_Ok in H as (a & p & -> & -> & Ha & _ & _ & ->).
  rewrite Forall_forall in Ha. unfold acast_required in Ha.
  repeat split; try (apply py_getitem_field, Ha; set_solver).
Qed.

Lemma channel_public_fields_witness :
  py_getitem (VDict ex_acast_channel) "title"
  = Ok (fg_title (channel VNone ex_generator ex_acast_channel ex_patreon_channel))
  /\ py_getitem (VDict ex_acast_channel) "summary"
     = Ok (fg_description (channel VNone ex_generator ex_acast_channel ex_patreon_channel))
  /\ py_getitem (VDict ex_acast_channel) "language"
     = Ok (fg_language (channel VNone ex_generator ex_acast_channel ex_patreon_channel))
  /\ py_getitem (VDict ex_acast_channel) "rights"
     = Ok (fg_rights (channel VNone ex_generator ex_acast_channel ex_patreon_channel))
  /\ fg_generator (channel VNone ex_generator ex_acast_channel ex_patreon_channel)
     = VStr "Acast and Patreon".
Proof.
  apply (channel_public_fields VNone ex_generator
           (VDict ex_acast_channel) (VDict ex_patreon_channel)).
  vm_compute. reflexivity.
Defined.

(** The public feed names its generator "acast.com"; the merged channel's
    generator is not that. *)
Lemma generator_counterexample :
  _set_feed_data VNone ex_generator (VDict ex_acast_channel) (VDict ex_patreon_channel)
  = Ok (channel VNone ex_generator ex_acast_channel ex_patreon_channel)
  /\ py_getitem (VDict ex_acast_channel) "generator" = Ok (VStr "acast.com")
  /\ fg_generator (channel VNone ex_generator ex_acast_channel ex_patreon_channel)
     <> VStr "acast.com".
Proof. vm_compute. done. Qed.



(** The sample feeds are complete, with and without the personal self
    link. *)
Example ex_complete :
  complete ex_acast_channel ex_patreon_channel = true
  /\ complete ex_acast_channel ex_patreon_channel_no_self = true.
Proof. vm_compute. done. Qed.


(** ** The entries *)



(** The first sample entry, merged as episode 1: season 1 and type "full"
    by default, no explicit flag, no duration. *)
Example ex_entry_defaults :
  (fun p => (pe_itunes_season p, pe_itunes_episode p, pe_itunes_explicit p,
             pe_itunes_duration p, pe_itunes_episode_type p))
    <$> fe_podcast ex_merged_entry
  = Some (VInt 1, VInt 1, VNone, VNone, VStr "full").
Proof. vm_compute. reflexivity. Qed.

(** * Further properties *)

(** ** Well-formed documents build *)












Lemma ttl_pos : (0 < ttl)%Q.
Proof. reflexivity. Qed.



(** X2.  When [feedparser] got no HTTP response from the public source,
    the parsed document has no [status]: the request then fails with an
    [AttributeError], which the route answers as 500; only the public URL
    was fetched and nothing is stored. *)
Theorem missing_status_is_500 str render mime up t t' auth w :
  (cache_getitem t auth (cache w)).1 = None ->
  parse up __ACAST_URL !! "status" = None ->
  (serve str render mime up t t' auth w).1
  = Raise (HTTPException (VInt 500)
             ("Error serving feed: " +:+ str (AttributeError "status")))
  /\ fetched (serve str render mime up t t' auth w).2 = fetched w ++ [__ACAST_URL]
  /\ cache (serve str render mime up t t' auth w).2 = (cache_getitem t auth (cache w)).2.
Proof.
  intros Hmiss Hst. erewrite serve_Raise.
  2:{ rewrite (generate_miss _ _ _ _ _ Hmiss).
      unfold generate_merged_feed_wrapped, mbind, M_bind, feedparser_parse, lift, raise.
      simpl. rewrite Hst. reflexivity. }
  by destruct w.
Qed.

Lemma missing_status_is_500_witness :
  (rss ex_render ex_str (ex_serve (delete "status" ex_acast_doc) ex_patreon_doc)
     0 1 "token" ex_world).1
  = Raise (HTTPException (VInt 500)
             ("Error serving feed: " +:+ ex_str (AttributeError "status")))
  /\ fetched (rss ex_render ex_str (ex_serve (delete "status" ex_acast_doc) ex_patreon_doc)
                0 1 "token" ex_world).2 = fetched ex_world ++ [__ACAST_URL]
  /\ cache (rss ex_render ex_str (ex_serve (delete "status" ex_acast_doc) ex_patreon_doc)
              0 1 "token" ex_world).2 = (cache_getitem 0 "token" (cache ex_world)).2.
Proof.
  apply (missing_status_is_500 ex_str ex_render "application/rss+xml"
           (ex_serve (delete "status" ex_acast_doc) ex_patreon_doc) 0 1 "token" ex_world).
  - vm_compute. reflexivity.
  - vm_compute. reflexivity.
Defined.

(** ** Entries whose date could not be parsed *)

Lemma sort_insert_Raise x l e : sort_insert x l = Raise e -> e = TypeError.
Proof.
  induction l as [|y l IH]; simpl; [discriminate|].
  destruct (py_lt y.1 x.1) as [[]|e'] eqn:Hlt; simpl.
  - destruct (sort_insert x l); simpl; [discriminate|]. intros [= <-]. by apply IH.
  - discriminate.
  - intros [= <-]. destruct y.1, x.1; simpl in Hlt; congruence.
Qed.

Lemma sort_keyed_Raise l e : sort_keyed l = Raise e -> e = TypeError.
Proof.
  induction l as [|x l IH]; simpl; [discriminate|].
  destruct (sort_keyed l) as [s|e']; simpl.
  - apply sort_insert_Raise.
  - intros [= <-]. by apply IH.
Qed.

Lemma sort_insert_untimed x y s :
  is_time x.1 = false \/ is_time y.1 = false ->
  sort_insert x (y :: s) = Raise TypeError.
Proof. simpl. intros [H|H]; destruct y.1, x.1; simpl in *; congruence. Qed.

(** With two or more items every key takes part in a comparison: one key
    that is not a timestamp makes the sort raise. *)
Lemma sort_keyed_untimed l :
  (2 <= length l)%nat -> Exists (fun p => is_time p.1 = false) l ->
  sort_keyed l = Raise TypeError.
Proof.
  induction l as [|x l IH]; simpl; [lia|]. intros Hlen Hex.
  destruct (sort_keyed l) as [s|e] eqn:Hs; simpl.
  - assert (Hp := sort_keyed_perm _ _ Hs).
    destruct s as [|y s]; [apply Permutation_nil_l in Hp; subst; simpl in Hlen; lia|].
    apply sort_insert_untimed.
    apply Exists_cons in Hex as [Hx|Hl]; [by left|]. right.
    destruct l as [|z [|z' l]]; [simpl in Hlen; lia| |].
    + apply Permutation_singleton_r in Hp as [= -> ->].
      by apply Exists_cons in Hl as [Hz|Hn%Exists_nil].
    + assert (Hr := IH ltac:(simpl; lia) Hl). congruence.
  - f_equal. by eapply sort_keyed_Raise.
Qed.

(** X3.  [feedparser] stores [None] under [published_parsed] when it
    cannot parse an entry's date.  With two or more entries, all dicts
    holding the key, one such entry makes the sort, and with it the whole
    build, raise [TypeError]: the entry is neither skipped nor put
    first or last. *)
Theorem unparsed_date_raises l :
  (2 <= length l)%nat ->
  Forall (fun e => exists d k, e = VDict d /\ d !! "published_parsed" = Some k) l ->
  Exists (fun e => published_parsed e = None) l ->
  list_sort (fun x => py_getitem x "published_parsed") l = Raise TypeError.
Proof.
  intros Hlen Hall Hex.
  assert (Hkeys : exists keys,
             mapM (fun x => py_getitem x "published_parsed") l = Ok keys
             /\ Forall2 (fun e k => py_getitem e "published_parsed" = Ok k) l keys).
  { clear Hlen Hex. induction Hall as [|e l (d & k & -> & Hk) _ (keys & IH & HF)].
    - exists []. by split.
    - exists (k :: keys). simpl. rewrite Hk. simpl. rewrite IH. split; [done|].
      constructor; [|done]. simpl. by rewrite Hk. }
  destruct Hkeys as (keys & Hkeys & HF).
  unfold list_sort. rewrite Hkeys. simpl.
  rewrite sort_keyed_untimed; [done| |].
  - rewrite length_zip. apply Forall2_length in HF. lia.
  - clear Hlen Hkeys Hall. induction HF as [|e k l keys Hk HF IH]; simpl.
    + by apply Exists_nil in Hex.
    + apply Exists_cons in Hex as [He|Hex].
      * apply Exists_cons_hd. simpl. unfold published_parsed in He. rewrite Hk in He.
        by destruct k.
      * apply Exists_cons_tl. by apply IH.
Qed.

Lemma unparsed_date_raises_witness :
  list_sort (fun x => py_getitem x "published_parsed")
    [ex_entry "a1" [2024; 1; 1]%Z; ex_entry_unparsed "p5"]
  = Raise TypeError.
Proof.
  apply (unparsed_date_raises [ex_entry "a1" [2024; 1; 1]%Z; ex_entry_unparsed "p5"]).
  - simpl. lia.
  - repeat constructor; eexists _, _; (split; [reflexivity | vm_compute; reflexivity]).
  - apply Exists_cons_tl, Exists_cons_hd. vm_compute. reflexivity.
Defined.

(** A feed with a single entry is not sorted by comparison: the same
    entry alone passes the sort. *)
Example ex_unparsed_alone :
  list_sort (fun x => py_getitem x "published_parsed") [ex_entry_unparsed "p5"]
  = Ok [ex_entry_unparsed "p5"].
Proof. vm_compute. reflexivity. Qed.

(** ** The merged order is final *)

Lemma sort_insert_sorted_head x l :
  Forall (key_le x) l -> sort_insert x l = Ok (x :: l).
Proof.
  destruct l as [|y l]; [done|]. intros [Hy _]%Forall_cons. simpl.
  unfold key_le in Hy. by rewrite Hy.
Qed.

Lemma sort_keyed_sorted_id l : StronglySorted key_le l -> sort_keyed l = Ok l.
Proof.
  induction 1 as [|x l Hl IH Hx]; [done|]. simpl. rewrite IH. simpl.
  by apply sort_insert_sorted_head.
Qed.

Lemma mapM_keyed l :
  Forall keyed l -> mapM (fun x => py_getitem x "published_parsed") l.*2 = Ok l.*1.
Proof.
  induction 1 as [|p l Hp _ IH]; [done|]. csimpl. rewrite Hp. simpl.
  by rewrite IH.
Qed.

(** X4.  Sorting the merged order again changes nothing: what the sort
    returns is a fixed point of the sort. *)
Theorem sort_idempotent l s :
  list_sort (fun x => py_getitem x "published_parsed") l = Ok s ->
  list_sort (fun x => py_getitem x "published_parsed") s = Ok s.
Proof.
  unfold list_sort at 1. intros H. bind_inv H. injection H as <-.
  rename x into keys, x0 into sp.
  assert (Hk : Forall keyed sp).
  { rewrite (sort_keyed_perm _ _ E0). apply mapM_Ok_Forall2 in E. clear -E.
    induction E; simpl; constructor; auto. }
  unfold list_sort. rewrite (mapM_keyed _ Hk). simpl.
  rewrite zip_fst_snd, (sort_keyed_sorted_id sp); [done|].
  by eapply sort_keyed_sorted.
Qed.

Lemma sort_idempotent_witness :
  list_sort (fun x => py_getitem x "published_parsed")
    [ex_entry "a1" [2024; 1; 1]%Z; ex_entry "p2" [2024; 1; 2]%Z;
     ex_entry "a3" [2024; 1; 3]%Z; ex_entry "p3" [2024; 1; 3]%Z]
  = Ok [ex_entry "a1" [2024; 1; 1]%Z; ex_entry "p2" [2024; 1; 2]%Z;
        ex_entry "a3" [2024; 1; 3]%Z; ex_entry "p3" [2024; 1; 3]%Z].
Proof.
  apply (sort_idempotent
           (entries_of ex_acast_doc ++ entries_of ex_patreon_doc)).
  vm_compute. reflexivity.
Defined.

(** ** More on the entries and the channel *)

(** X5.  An entry without a [links] key is not treated as an entry
    without links: [entry.get('links')] is [None], and the loop over it
    raises [TypeError]. *)
Theorem entry_without_links_raises fe d number :
  is_Some (d !! "title") -> d !! "links" = None ->
  _set_feed_entry_data fe (VDict d) number = Raise TypeError.
Proof.
  intros [title Ht] Hl. unfold _set_feed_entry_data. simpl. by rewrite Ht, Hl.
Qed.

Lemma entry_without_links_raises_witness :
  _set_feed_entry_data (FeedEntry_new ex_generator)
    (VDict (delete "links" (default ∅ (as_dict (ex_entry "a1" [2024; 1; 1]%Z))))) 1
  = Raise TypeError.
Proof.
  apply (entry_without_links_raises (FeedEntry_new ex_generator)
           (delete "links" (default ∅ (as_dict (ex_entry "a1" [2024; 1; 1]%Z)))) 1).
  - vm_compute. eexists. reflexivity.
  - vm_compute. reflexivity.
Defined.

(** X6.  The "related" link takes the [href] of the personal feed's first
    self link with [link['href']]: when that link has no [href],
    [_set_feed_data] raises [KeyError('href')], whatever later self links
    hold. *)
Theorem self_link_without_href_raises now fg a p (pls : list (gmap string value)) link :
  is_Some (a !! "title") -> is_Some (a !! "summary") ->
  is_list_of_dicts (default (VList []) (a !! "links")) = true ->
  p !! "links" = Some (VList (VDict <$> pls)) ->
  List.find is_self pls = Some link ->
  link !! "href" = None ->
  _set_feed_data now fg (VDict a) (VDict p) = Raise (KeyError "href").
Proof.
  intros [title Ht] [summary Hs] [ls Hls]%is_list_of_dicts_spec Hpls Hfind Hhref.
  unfold _set_feed_data. run. rewrite Hls. cbn [py_iter]. run.
  match goal with
  | |- mbind _ (foldlM add_feed_link ?g _) = _ =>
      destruct (is_ok_Ok _ (foldlM_add_feed_link_dicts g ls)) as [g1 Hg1]
  end.
  run. cbn [py_iter]. run. rewrite first_self_link_dicts, Hfind. run.
  apply find_some in Hfind as [_ Hself]. rewrite (is_self_truthy _ Hself).
  simpl. by rewrite Hhref.
Qed.

Lemma self_link_without_href_raises_witness :
  _set_feed_data VNone ex_generator (VDict ex_acast_channel)
    (VDict {[ "links" := VList (VDict <$> [ {[ "rel" := VStr "self" ]};
                                            {[ "rel" := VStr "self";
                                               "href" := VStr "https://www.patreon.com/" ]} ]);
              "subtitle" := VStr "Bonusfolgen" ]})
  = Raise (KeyError "href").
Proof.
  apply (self_link_without_href_raises VNone ex_generator ex_acast_channel _
           [ {[ "rel" := VStr "self" ]};
             {[ "rel" := VStr "self"; "href" := VStr "https://www.patreon.com/" ]} ]
           {[ "rel" := VStr "self" ]}).
  - vm_compute. eexists. reflexivity.
  - vm_compute. eexists. reflexivity.
  - vm_compute. reflexivity.
  - vm_compute. reflexivity.
  - vm_compute. reflexivity.
  - vm_compute. reflexivity.
Defined.

(** X7.  The merged channel's ttl is the public feed's ttl when it has
    one, and 60 otherwise; the personal feed's ttl is never used. *)
Theorem channel_ttl now fg a patreon_data g :
  _set_feed_data now fg (VDict a) patreon_data = Ok g ->
  fg_ttl g = match a !! "ttl" with Some ttl => ttl | None => VInt 60 end.
Proof.
  intros H. by apply _set_feed_data_Ok in H as (a' & p & [= <-] & _ & _ & _ & _ & ->).
Qed.

Lemma channel_ttl_witness :
  fg_ttl (channel VNone ex_generator ex_acast_channel
            (<["ttl" := VInt 5]> ex_patreon_channel))
  = match ex_acast_channel !! "ttl" with Some ttl => ttl | None => VInt 60 end.
Proof.
  apply (channel_ttl VNone ex_generator ex_acast_channel
           (VDict (<["ttl" := VInt 5]> ex_patreon_channel))).
  vm_compute. reflexivity.
Defined.



(** The sample image has a URL only: the merged image has it as [url], and
    [None] as title and link. *)
Example ex_channel_image :
  fg_image ex_channel
  = {[ "url" := VStr "https://cdn.example/cover.jpg"; "title" := VNone; "link" := VNone ]}.
Proof. vm_compute. reflexivity. Qed.

(** X9.  The channel gets one category per tag of the public feed, in
    order, each with the tag's term, scheme and label; a public feed
    without [tags] adds none, and one without [links] adds no link of its
    own. *)
Theorem channel_categories now fg a patreon_data g :
  _set_feed_data now fg (VDict a) patreon_data = Ok g ->
  fg_category g = fg_category fg ++ (category_of <$> tags_of a)
  /\ (a !! "tags" = None -> fg_category g = fg_category fg)
  /\ (a !! "links" = None ->
      exists p, patreon_data = VDict p /\ fg_link g = fg_link fg ++ related_links p).
Proof.
  intros H. apply _set_feed_data_Ok in H as (a' & p & [= <-] & -> & _ & _ & _ & ->).
  split; [done|]. split.
  - intros Ht. simpl. unfold tags_of. rewrite Ht. simpl. by rewrite app_nil_r.
  - intros Hl. exists p. split; [done|]. simpl. unfold links_of. by rewrite Hl.
Qed.

Lemma channel_categories_witness :
  fg_category (channel VNone ex_generator ex_acast_channel_tagged ex_patreon_channel)
  = fg_category ex_generator ++ (category_of <$> tags_of ex_acast_channel_tagged)
  /\ (ex_acast_channel_tagged !! "tags" = None ->
      fg_category (channel VNone ex_generator ex_acast_channel_tagged ex_patreon_channel)
      = fg_category ex_generator)
  /\ (ex_acast_channel_tagged !! "links" = None ->
      exists p, VDict ex_patreon_channel = VDict p
                /\ fg_link (channel VNone ex_generator ex_acast_channel_tagged
                              ex_patreon_channel)
                   = fg_link ex_generator ++ related_links p).
Proof.
  apply (channel_categories VNone ex_generator ex_acast_channel_tagged
           (VDict ex_patreon_channel)).
  vm_compute. reflexivity.
Defined.

(** A public channel with two tags and no links: two categories, and the
    "related" link as the only link. *)
Example ex_channel_tagged :
  let g := channel VNone ex_generator ex_acast_channel_tagged ex_patreon_channel in
  (fun c => c !! "term") <$> fg_category g = [Some (VStr "Comedy"); Some (VStr "Society")]
  /\ (fun l => l !! "rel") <$> fg_link g = [Some (VStr "related")].
Proof. vm_compute. done. Qed.

(** ** The routes *)






(** X11.  A route raises nothing but [HTTPException]: it returns a
    response, or raises an [HTTPException]; and a build that raises any
    other exception [e] is answered as status 500 with the detail
    "Error serving feed: " followed by [str(e)]. *)
Theorem routes_raise_only_http str render mime up t t' auth w :
  ((exists r, (serve str render mime up t t' auth w).1 = Ok r)
   \/ (exists status_code detail,
         (serve str render mime up t t' auth w).1
         = Raise (HTTPException status_code detail)))
  /\ forall e, (generate_merged_feed up t t' auth w).1 = Raise e ->
       (forall status_code detail, e <> HTTPException status_code detail) ->
       (serve str render mime up t t' auth w).1
       = Raise (HTTPException (VInt 500) ("Error serving feed: " +:+ str e)).
Proof.
  unfold serve. destruct (generate_merged_feed up t t' auth w) as [[fg|e] w1]; simpl.
  - split; [|discriminate].
    destruct (render fg) as [c|e]; simpl; [eauto|]. right. destruct e; simpl; eauto.
  - split; [right; destruct e; simpl; eauto|].
    intros e' [= <-] Hne. destruct e; simpl; try done. by destruct (Hne status_code detail).
Qed.



(** X13.  A request fetches nothing, or the public feed, or the public
    feed and then the personal feed of its own credential: never more,
    never the personal feed alone or first. *)
Theorem fetch_discipline up t t' token w :
  exists urls,
    fetched (generate_merged_feed up t t' token w).2 = fetched w ++ urls
    /\ (urls = [] \/ urls = [__ACAST_URL] \/ urls = [__ACAST_URL; __PATREON_URL token]).
Proof.
  unfold generate_merged_feed.
  destruct (cache_getitem t token (cache w)) as [[v|] c]; simpl.
  - exists []. rewrite app_nil_r. split; [by destruct w | by left].
  - unfold generate_merged_feed_wrapped, mbind, M_bind, feedparser_parse, lift, raise.
    destruct w as [c0 log]. simpl.
    repeat match goal with
      | |- context [match ?r with Ok _ => _ | Raise _ => _ end] => destruct r; simpl
      | |- context [if ?b then _ else _] => destruct b; simpl
      end;
      rewrite <- ?app_assoc; simpl; eauto 10.
Qed.

(** ** More on the cache *)

(** X14.  What a look-up returns is the value of an item stored under the
    key asked for and not yet expired. *)
Theorem lookup_sound t k c v :
  (cache_getitem t k c).1 = Some v ->
  exists it, it ∈ c /\ ci_key it = k /\ ci_value it = v /\ (t < ci_expires it)%Q.
Proof.
  unfold cache_getitem. destruct (List.find (has_key k) c) as [it|] eqn:Hf; [|discriminate].
  simpl. destruct (live t it) eqn:Hl; [|discriminate]. intros [= <-].
  apply find_some in Hf as [Hin Hk]. exists it.
  split; [by apply list_elem_of_In|]. split; [by apply String.eqb_eq|].
  split; [done | by apply live_lt].
Qed.

Lemma lookup_sound_witness :
  exists it, it ∈ cache ex_first.2 /\ ci_key it = "token" /\ ci_value it = ex_feed
             /\ (30 < ci_expires it)%Q.
Proof.
  apply (lookup_sound 30 "token" (cache ex_first.2) ex_feed).
  vm_compute. reflexivity.
Defined.

Lemma keys_filter_sub f c : cache_keys (List.filter f c) `sublist_of` cache_keys c.
Proof.
  induction c as [|it c IH]; simpl; [constructor|].
  destruct (f it); simpl; [by constructor | by apply sublist_cons].
Qed.

Lemma find_filter_other {A} (f g : A -> bool) l :
  (forall x, f x = true -> g x = true) ->
  List.find f (List.filter g l) = List.find f l.
Proof.
  intros Hfg. induction l as [|x l IH]; simpl; [done|].
  destruct (f x) eqn:Hf.
  - rewrite (Hfg _ Hf). simpl. by rewrite Hf.
  - destruct (g x); simpl; [by rewrite Hf|done].
Qed.

Lemma find_app_miss {A} (f : A -> bool) l x :
  f x = false -> List.find f (l ++ [x]) = List.find f l.
Proof.
  intros Hx. induction l as [|y l IH]; simpl; [by rewrite Hx|].
  by destruct (f y).
Qed.

Lemma has_key_ne k k' it : k <> k' -> has_key k' it = true -> negb (has_key k it) = true.
Proof.
  unfold has_key. intros Hne Hk'%String.eqb_eq.
  apply negb_true_iff, String.eqb_neq. congruence.
Qed.

(** The first item under [k] is live or there is none: removing the
    expired items does not change what a later look-up finds. *)
Lemma find_expire ts t k c :
  NoDup (cache_keys c) -> (ts <= t)%Q ->
  match List.find (has_key k) (expire ts c) with
  | Some it => if live t it then Some (ci_value it) else None
  | None => None
  end
  = match List.find (has_key k) c with
    | Some it => if live t it then Some (ci_value it) else None
    | None => None
    end.
Proof.
  intros Hnd Hle. unfold expire. induction c as [|it c IH]; simpl; [done|].
  apply NoDup_cons in Hnd as [Hnin Hnd].
  destruct (live ts it) eqn:Hl; simpl.
  - destruct (has_key k it); [done | by apply IH].
  - destruct (has_key k it) eqn:Hk; [|by apply IH].
    rewrite (live_mono _ _ _ Hle Hl).
    destruct (List.find (has_key k) (List.filter (live ts) c)) as [it'|] eqn:Hf; [|done].
    exfalso. apply find_some in Hf as [Hin Hk'].
    apply filter_In in Hin as [Hin _]. apply Hnin.
    apply String.eqb_eq in Hk, Hk'. rewrite Hk, <- Hk'.
    apply list_elem_of_fmap. exists it'. split; [done | by apply list_elem_of_In].
Qed.

(** X15.  Below capacity, storing a feed under one credential does not
    change what a later look-up of another credential finds. *)
Theorem store_leaves_other_keys ts t k k' v c :
  NoDup (cache_keys c) -> (length c < maxsize)%nat -> k <> k' -> (ts <= t)%Q ->
  (cache_getitem t k' (cache_setitem ts k v c)).1 = (cache_getitem t k' c).1.
Proof.
  intros Hnd Hlen Hne Hle. unfold cache_setitem.
  assert (Hdrop : (if existsb (has_key k) (expire ts c) then expire ts c
                   else drop (length (expire ts c) + 1 - maxsize) (expire ts c))
                  = expire ts c).
  { destruct (existsb _ _); [done|].
    pose proof (List.filter_length_le (live ts) c) as Hfl. unfold expire.
    replace (_ + 1 - maxsize)%nat with 0%nat by lia. done. }
  rewrite Hdrop.
  assert (Hdef : forall c0, (cache_getitem t k' c0).1
                 = match List.find (has_key k') c0 with
                   | Some it => if live t it then Some (ci_value it) else None
                   | None => None
                   end).
  { intros c0. unfold cache_getitem. by destruct (List.find _ c0). }
  rewrite !Hdef, find_app_miss.
  2:{ unfold has_key. simpl. by apply String.eqb_neq. }
  rewrite find_filter_other by (intros; by eapply has_key_ne).
  by apply find_expire.
Qed.

Lemma store_leaves_other_keys_witness :
  (cache_getitem 30 "token" (cache_setitem 20 "other" FeedGenerator_new (cache ex_first.2))).1
  = (cache_getitem 30 "token" (cache ex_first.2)).1.
Proof.
  apply (store_leaves_other_keys 20 30 "other" "token" FeedGenerator_new (cache ex_first.2)).
  - vm_compute. repeat constructor. intros H. inversion H.
  - vm_compute. lia.
  - discriminate.
  - vm_compute. discriminate.
Defined.

Lemma getitem_length t k c : (length (cache_getitem t k c).2 <= length c)%nat.
Proof.
  unfold cache_getitem. destruct (List.find (has_key k) c) as [it|] eqn:Hf; [|done].
  simpl. rewrite length_app. simpl.
  apply find_some in Hf as [Hin Hk].
  induction c as [|x c IH]; [done|]. simpl.
  destruct Hin as [->|Hin].
  - rewrite Hk. simpl.
    pose proof (List.filter_length_le (fun it' => negb (has_key k it')) c). lia.
  - specialize (IH Hin). destruct (has_key k x); simpl; lia.
Qed.





Lemma filter_all {A} (f : A -> bool) l : forallb f l = true -> List.filter f l = l.
Proof.
  induction l as [|x l IH]; simpl; [done|].
  intros [Hx Hl]%andb_prop. rewrite Hx. f_equal. by apply IH.
Qed.

Lemma forallb_negb_existsb {A} (f : A -> bool) l :
  existsb f l = false -> forallb (fun x => negb (f x)) l = true.
Proof.
  induction l as [|x l IH]; simpl; [done|].
  intros [Hx Hl]%orb_false_elim. rewrite Hx. simpl. by apply IH.
Qed.

(** X17.  Eviction takes the least recently used item.  Storing a new
    credential in a full cache of live items drops the first item and
    nothing else; and an item that was just looked up is at the end, so
    it survives that store. *)
Theorem lru_eviction t k v c :
  length c = maxsize -> forallb (live t) c = true -> existsb (has_key k) c = false ->
  cache_setitem t k v c
  = drop 1 c ++ [ {| ci_key := k; ci_expires := (t + ttl)%Q; ci_value := v |} ]
  /\ forall t0 k0 it0,
       List.find (has_key k0) c = Some it0 ->
       it0 ∈ cache_setitem t k v (cache_getitem t0 k0 c).2.
Proof.
  intros Hlen Hlive Hk. split.
  - unfold cache_setitem, expire. rewrite (filter_all _ _ Hlive), Hk, Hlen.
    replace (maxsize + 1 - maxsize)%nat with 1%nat by lia.
    rewrite filter_all; [done|]. apply forallb_negb_existsb.
    destruct c as [|x c']; [done|]. change (drop 1 (x :: c')) with c'.
    simpl in Hk. by apply orb_false_elim in Hk as [_ Hk].
  - intros t0 k0 it0 Hf. unfold cache_getitem. rewrite Hf. simpl.
    pose proof (find_some _ _ Hf) as [Hin Hk0].
    assert (Hne : has_key k it0 = false).
    { rewrite <- not_true_iff_false. intros Hk'.
      rewrite <- not_true_iff_false in Hk. apply Hk.
      apply existsb_exists. eauto. }
    assert (Hl0 : live t it0 = true).
    { rewrite forallb_forall in Hlive. by apply Hlive. }
    set (c1 := List.filter (fun it' => negb (has_key k0 it')) c ++ [it0]).
    assert (Hlen1 : (length c1 <= maxsize)%nat).
    { pose proof (getitem_length t0 k0 c) as Hg. unfold cache_getitem in Hg.
      rewrite Hf in Hg. simpl in Hg. fold c1 in Hg. lia. }
    assert (Hex1 : expire t c1 = c1).
    { unfold expire. apply filter_all. unfold c1. rewrite forallb_app. simpl.
      rewrite Hl0. rewrite andb_true_r. rewrite forallb_forall in *.
      intros x [Hx _]%filter_In. by apply Hlive. }
    unfold cache_setitem. rewrite Hex1.
    apply elem_of_app. left. apply list_elem_of_In, filter_In.
    split; [|by rewrite Hne].
    destruct (existsb (has_key k) c1).
    + apply in_or_app. right. by left.
    + apply list_elem_of_In.
      assert (Hn : (length c1 + 1 - maxsize <= 1)%nat) by lia.
      assert (Hlast : c1 !! (length c1 - 1)%nat = Some it0).
      { unfold c1. rewrite lookup_app_r; rewrite length_app; simpl; [|lia].
        by replace (_ + 1 - 1 - _)%nat with 0%nat by lia. }
      apply list_elem_of_lookup.
      exists (length c1 - 1 - (length c1 + 1 - maxsize))%nat.
      rewrite lookup_drop. rewrite <- Hlast. f_equal.
      assert (1 <= length c1)%nat by (unfold c1; rewrite length_app; simpl; lia).
      unfold maxsize in *. destruct (decide (length c1 = 1024%nat)); lia.
Qed.

Lemma lru_eviction_witness :
  cache_setitem 50 "token" ex_feed ex_full_cache
  = drop 1 ex_full_cache
    ++ [ {| ci_key := "token"; ci_expires := (50 + ttl)%Q; ci_value := ex_feed |} ]
  /\ forall t0 k0 it0,
       List.find (has_key k0) ex_full_cache = Some it0 ->
       it0 ∈ cache_setitem 50 "token" ex_feed (cache_getitem t0 k0 ex_full_cache).2.
Proof.
  apply (lru_eviction 50 "token" ex_feed ex_full_cache).
  - vm_compute. reflexivity.
  - vm_compute. reflexivity.
  - vm_compute. reflexivity.
Defined.

(** X18.  A store leaves no expired item behind: right after a feed is
    stored at time [t], every item in the cache expires later than [t]. *)
Theorem store_purges_expired t k v c :
  Forall (fun it => (t < ci_expires it)%Q) (cache_setitem t k v c).
Proof.
  unfold cache_setitem. apply Forall_app. split.
  - apply Forall_forall. intros it [Hin _]%list_elem_of_In%filter_In.
    assert (Hexp : In it (expire t c)).
    { destruct (existsb (has_key k) (expire t c)); [done|].
      apply list_elem_of_In. apply list_elem_of_In in Hin.
      by eapply subseteq_drop. }
    apply filter_In in Hexp as [_ Hl]. by apply live_lt.
  - constructor; [|constructor]. simpl. pose proof ttl_pos. lra.
Qed.

Lemma keys_snoc_NoDup k c it :
  NoDup (cache_keys c) -> ci_key it = k ->
  NoDup (cache_keys (List.filter (fun it' => negb (has_key k it')) c ++ [it])).
Proof.
  intros Hnd Hk. unfold cache_keys. rewrite fmap_app. apply NoDup_app.
  split; [|split].
  - eapply sublist_NoDup; [exact Hnd | apply keys_filter_sub].
  - intros k' Hin Hk'. simpl in Hk'. apply list_elem_of_singleton in Hk'. subst k'.
    apply list_elem_of_fmap in Hin as (it' & Heq & [_ Hf]%list_elem_of_In%filter_In).
    apply negb_true_iff, String.eqb_neq in Hf. congruence.
  - simpl. apply NoDup_singleton.
Qed.

Lemma keys_drop_NoDup n c : NoDup (cache_keys c) -> NoDup (cache_keys (drop n c)).
Proof.
  unfold cache_keys. rewrite fmap_drop. intros H.
  eapply sublist_NoDup; [exact H | apply sublist_drop].
Qed.

(** X19.  The cache holds at most one item per credential: a request made
    on a cache without two items under one key leaves such a cache. *)
Theorem one_item_per_credential up t t' token w :
  NoDup (cache_keys (cache w)) ->
  NoDup (cache_keys (cache (generate_merged_feed up t t' token w).2)).
Proof.
  intros Hnd.
  assert (Hget : NoDup (cache_keys (cache_getitem t token (cache w)).2)).
  { unfold cache_getitem.
    destruct (List.find (has_key token) (cache w)) as [it|] eqn:Hf; [|done].
    simpl. apply keys_snoc_NoDup; [done|].
    apply find_some in Hf as [_ Hk]. by apply String.eqb_eq. }
  unfold generate_merged_feed.
  destruct (cache_getitem t token (cache w)) as [[v|] c].
  - destruct w; unfold constant; simpl in *. done.
  - pose proof (proj1 (wrapped_world up token (w <| cache := c |>))) as Hc.
    destruct (generate_merged_feed_wrapped _ _ _) as [[v|e] w1];
      destruct w1, w; unfold constant in *; simpl in *; subst; [|done].
    unfold cache_setitem. apply keys_snoc_NoDup; [|done].
    assert (He : NoDup (cache_keys (expire t' c))).
    { eapply sublist_NoDup; [exact Hget | apply keys_filter_sub]. }
    destruct (existsb _ _); [done | by apply keys_drop_NoDup].
Qed.

Lemma one_item_per_credential_witness :
  NoDup (cache_keys (cache (generate_merged_feed ex_upstream 30 31 "token" ex_first.2).2)).
Proof.
  apply (one_item_per_credential ex_upstream 30 31 "token" ex_first.2).
  vm_compute. repeat constructor. intros H. inversion H.
Defined.

(** ** The personal feed's URL *)

Lemma string_length_append a b :
  String.length (a +:+ b) = (String.length a + String.length b)%nat.
Proof. induction a as [|c a IH]; simpl; [done|]. by rewrite IH. Qed.

Lemma append_inj_l s a b : s +:+ a = s +:+ b -> a = b.
Proof. induction s as [|c s IH]; simpl; [done|]. intros [= H]. by apply IH. Qed.

Lemma append_inj_r a b s : a +:+ s = b +:+ s -> a = b.
Proof.
  revert b. induction a as [|c a IH]; intros [|c' b] H; simpl in H.
  - done.
  - apply (f_equal String.length) in H.
    change (String.length s = S (String.length (b +:+ s))) in H.
    rewrite string_length_append in H. lia.
  - apply (f_equal String.length) in H.
    change (S (String.length (a +:+ s)) = String.length s) in H.
    rewrite string_length_append in H. lia.
  - injection H as -> H. f_equal. by apply IH.
Qed.

(** X20.  Two different credentials never give the same personal feed
    URL. *)
Theorem patreon_url_distinct token1 token2 :
  token1 <> token2 -> __PATREON_URL token1 <> __PATREON_URL token2.
Proof.
  intros Hne H. apply Hne. unfold __PATREON_URL in H.
  apply append_inj_l in H. by apply append_inj_r in H.
Qed.

Lemma patreon_url_distinct_witness :
  __PATREON_URL "alice" <> __PATREON_URL "bob".
Proof. apply (patreon_url_distinct "alice" "bob"). discriminate. Defined.
